(** * The enkf_node layer of libenkf: capability dispatch and the
      (state, report_step, modified) bookkeeping of [enkf_node.c].

    The node is a struct of function pointers (one set per implementation
    type), a pointer to the underlying object, and four internal variables
    recording what the in-memory object corresponds to.  The functions of
    [enkf_node.c] are embedded one by one as actions of a small
    state / log / abort monad over that struct. *)

From Stdlib Require Import ZArith List String Bool Lia.
Import ListNotations.
Local Open Scope Z_scope.
Local Open Scope string_scope.

(** ** Enumerations of enkf_types.h, as the source uses them *)

(** Modelled from the spec: [state_enum] is declared in enkf_types.h, which
    is not among the sources; the phase is one of Undefined, Forecast,
    Analyzed, here under the names [enkf_node.c] assigns and compares. *)
Inductive state_enum : Type := undefined | forecast | analyzed.

Definition state_enum_eqb (a b : state_enum) : bool :=
  match a, b with
  | undefined, undefined | forecast, forecast | analyzed, analyzed => true
  | _, _ => false
  end.

(** [enkf_impl_type]: the eleven labels of the switch in
    [enkf_node_alloc_empty]; every other integer value takes the [default]
    branch and is kept as [other_impl]. *)
Inductive enkf_impl_type : Type :=
| GEN_KW | MULTZ | RELPERM | MULTFLT | WELL | SUMMARY | HAVANA_FAULT
| FIELD | EQUIL | STATIC | GEN_DATA
| other_impl (code : Z).

(** ** Observable behaviour *)

(** One entry per call through a function pointer of the node (or to the
    one external helper that touches the object directly); this is the only
    way the node layer reaches memory management and the file system. *)
Inductive event : Type :=
| call_alloc
| call_ecl_write (target : string)
| call_ecl_load (source : string)
| call_fread_f
| call_fwrite_f
| call_realloc_data
| call_free_data
| call_serialize
| call_deserialize
| call_initialize
| call_freef
| call_clear
| call_scale
| call_iadd
| call_imul
| call_isqrt
| call_iaddsqr
| call_fprintf_results (filename : string)
| call_ecl_static_kw_init
| call_serial_state_clear.

(** What is printed before the process is terminated. *)
Inductive diagnostic : Type :=
| handler_not_registered (func handler node : string)   (* FUNC_ASSERT *)
| fatal (func message : string)                          (* util_abort *)
| printed (message : string).                            (* printf; abort() *)

(** A call either returns, terminates the process after a diagnostic, or
    jumps through a NULL pointer (undefined behaviour, no diagnostic).  The
    log holds the calls made up to that point, oldest first. *)
Inductive outcome (A : Type) : Type :=
| Ok (a : A) (log : list event)
| Abort (d : diagnostic) (log : list event)
| Crash (log : list event).
Arguments Ok {A} a log.
Arguments Abort {A} d log.
Arguments Crash {A} log.

(** ** What lives outside enkf_node.c *)

(** Modelled from the spec: [enkf_config_node_type] and its accessors
    are in enkf_config_node.c, which is not among the sources.  The
    ConfigDescriptor holds a key name, a kind tag, an optional input file
    name, an optional output file name and the kind-specific parameters;
    the fields are named after the five accessors [enkf_node.c] calls
    ([enkf_config_node_get_key_ref], [_get_impl_type], [_get_ref],
    [_get_outfile_ref], [_get_infile]); a file name that is not set is
    NULL. *)
Record enkf_config_node_type (config_ref : Type) : Type := {
  enkf_config_node_get_key_ref : string;
  enkf_config_node_get_impl_type : enkf_impl_type;
  enkf_config_node_get_ref : config_ref;
  enkf_config_node_get_outfile_ref : option string;
  enkf_config_node_get_infile : option string
}.
Arguments enkf_config_node_get_key_ref {config_ref}.
Arguments enkf_config_node_get_impl_type {config_ref}.
Arguments enkf_config_node_get_ref {config_ref}.
Arguments enkf_config_node_get_outfile_ref {config_ref}.
Arguments enkf_config_node_get_infile {config_ref}.

(** The opaque types, the helpers of other translation units, and for each
    implementation type the functions [<type>_<slot>__] that
    [enkf_node_alloc_empty] may store in the node ([fn_fread_f GEN_KW] is
    [gen_kw_fread__], and so on; for [GEN_DATA] the functions are the
    [gen_param_*__] ones).  A function that works on the object through the
    [void *] returns the new contents of the object; one that only writes to
    the outside returns nothing and shows in the log alone. *)
Class Externals : Type := {
  payload : Type;
  config_ref : Type;
  FILE : Type;
  fortio_type : Type;
  ecl_sum_type : Type;
  ecl_block_type : Type;
  ecl_kw_type : Type;
  serial_state_type : Type;
  serial_vector_type : Type;
  double : Type;
  iget_ftype : Type;
  get_index_ftype : Type;

  serial_state_alloc : serial_state_type;
  serial_state_clear : serial_state_type -> serial_state_type;
  serial_state_complete : serial_state_type -> bool;
  ecl_static_kw_init : payload -> ecl_kw_type -> payload;
  util_alloc_full_path : string -> string -> string;

  fn_alloc : enkf_impl_type -> config_ref -> payload;
  fn_ecl_write : enkf_impl_type -> payload -> string -> fortio_type -> unit;
  fn_ecl_load : enkf_impl_type ->
    payload -> string -> ecl_sum_type -> ecl_block_type -> Z -> payload;
  fn_fread_f : enkf_impl_type -> payload -> FILE -> payload;
  fn_fwrite_f : enkf_impl_type -> payload -> FILE -> bool;
  fn_realloc_data : enkf_impl_type -> payload -> payload;
  fn_free_data : enkf_impl_type -> payload -> payload;
  fn_serialize : enkf_impl_type ->
    payload -> serial_state_type -> Z -> serial_vector_type ->
    Z * serial_state_type * serial_vector_type;
  fn_deserialize : enkf_impl_type ->
    payload -> serial_state_type -> serial_vector_type ->
    payload * serial_state_type;
  fn_initialize : enkf_impl_type -> payload -> Z -> payload;
  fn_freef : enkf_impl_type -> payload -> unit;
  fn_copyc : enkf_impl_type -> payload -> payload;
  fn_fprintf_results : enkf_impl_type ->
    list (option payload) -> nat -> string -> unit;
  fn_iget : enkf_impl_type -> iget_ftype
}.

Section Node.
Context {ext : Externals}.

(** The function pointer types of the struct, by what the pointed-to
    function computes. *)
Definition alloc_ftype := config_ref -> payload.
Definition ecl_write_ftype := payload -> string -> fortio_type -> unit.
Definition ecl_load_ftype :=
  payload -> string -> ecl_sum_type -> ecl_block_type -> Z -> payload.
Definition fread_ftype := payload -> FILE -> payload.
Definition fwrite_ftype := payload -> FILE -> bool.
Definition realloc_data_ftype := payload -> payload.
Definition free_data_ftype := payload -> payload.
Definition serialize_ftype :=
  payload -> serial_state_type -> Z -> serial_vector_type ->
  Z * serial_state_type * serial_vector_type.
Definition deserialize_ftype :=
  payload -> serial_state_type -> serial_vector_type ->
  payload * serial_state_type.
Definition initialize_ftype := payload -> Z -> payload.
Definition free_ftype := payload -> unit.
Definition clear_ftype := payload -> payload.
Definition copyc_ftype := payload -> payload.
Definition scale_ftype := payload -> double -> payload.
Definition iadd_ftype := payload -> payload -> payload.
Definition imul_ftype := payload -> payload -> payload.
Definition isqrt_ftype := payload -> payload.
Definition iaddsqr_ftype := payload -> payload -> payload.
Definition ensemble_fprintf_results_ftype :=
  list (option payload) -> nat -> string -> unit.

(** [struct enkf_node_struct], field for field.  A pointer that may be
    NULL is an [option]; [__report_step] is a C [int] that is only assigned
    and compared, never computed with, so [Z] carries it without any
    wrap-around to write out. *)
Record enkf_node_type : Type := {
  alloc : option alloc_ftype;
  ecl_write : option ecl_write_ftype;
  ecl_load : option ecl_load_ftype;
  fread_f : option fread_ftype;
  fwrite_f : option fwrite_ftype;
  realloc_data : option realloc_data_ftype;
  free_data : option free_data_ftype;
  serialize : option serialize_ftype;
  deserialize : option deserialize_ftype;
  initialize : option initialize_ftype;
  freef : option free_ftype;
  clear : option clear_ftype;
  copyc : option copyc_ftype;
  scale : option scale_ftype;
  iadd : option iadd_ftype;
  imul : option imul_ftype;
  isqrt : option isqrt_ftype;
  iaddsqr : option iaddsqr_ftype;
  fprintf_results : option ensemble_fprintf_results_ftype;
  iget : option iget_ftype;
  get_index : option get_index_ftype;
  node_key : string;
  data : option payload;
  config : enkf_config_node_type config_ref;
  serial_state : serial_state_type;
  __memory_allocated : bool;
  __modified : bool;
  __report_step : Z;
  __state : state_enum
}.

(** Assignment to one field ([node->f = v]). *)
Definition upd_alloc v (n : enkf_node_type) : enkf_node_type :=
  Build_enkf_node_type v (ecl_write n) (ecl_load n) (fread_f n) (fwrite_f n) (realloc_data n) (free_data n) (serialize n) (deserialize n) (initialize n) (freef n) (clear n) (copyc n) (scale n) (iadd n) (imul n) (isqrt n) (iaddsqr n) (fprintf_results n) (iget n) (get_index n) (node_key n) (data n) (config n) (serial_state n) (__memory_allocated n) (__modified n) (__report_step n) (__state n).
Definition upd_ecl_write v (n : enkf_node_type) : enkf_node_type :=
  Build_enkf_node_type (alloc n) v (ecl_load n) (fread_f n) (fwrite_f n) (realloc_data n) (free_data n) (serialize n) (deserialize n) (initialize n) (freef n) (clear n) (copyc n) (scale n) (iadd n) (imul n) (isqrt n) (iaddsqr n) (fprintf_results n) (iget n) (get_index n) (node_key n) (data n) (config n) (serial_state n) (__memory_allocated n) (__modified n) (__report_step n) (__state n).
Definition upd_ecl_load v (n : enkf_node_type) : enkf_node_type :=
  Build_enkf_node_type (alloc n) (ecl_write n) v (fread_f n) (fwrite_f n) (realloc_data n) (free_data n) (serialize n) (deserialize n) (initialize n) (freef n) (clear n) (copyc n) (scale n) (iadd n) (imul n) (isqrt n) (iaddsqr n) (fprintf_results n) (iget n) (get_index n) (node_key n) (data n) (config n) (serial_state n) (__memory_allocated n) (__modified n) (__report_step n) (__state n).
Definition upd_fread_f v (n : enkf_node_type) : enkf_node_type :=
  Build_enkf_node_type (alloc n) (ecl_write n) (ecl_load n) v (fwrite_f n) (realloc_data n) (free_data n) (serialize n) (deserialize n) (initialize n) (freef n) (clear n) (copyc n) (scale n) (iadd n) (imul n) (isqrt n) (iaddsqr n) (fprintf_results n) (iget n) (get_index n) (node_key n) (data n) (config n) (serial_state n) (__memory_allocated n) (__modified n) (__report_step n) (__state n).
Definition upd_fwrite_f v (n : enkf_node_type) : enkf_node_type :=
  Build_enkf_node_type (alloc n) (ecl_write n) (ecl_load n) (fread_f n) v (realloc_data n) (free_data n) (serialize n) (deserialize n) (initialize n) (freef n) (clear n) (copyc n) (scale n) (iadd n) (imul n) (isqrt n) (iaddsqr n) (fprintf_results n) (iget n) (get_index n) (node_key n) (data n) (config n) (serial_state n) (__memory_allocated n) (__modified n) (__report_step n) (__state n).
Definition upd_realloc_data v (n : enkf_node_type) : enkf_node_type :=
  Build_enkf_node_type (alloc n) (ecl_write n) (ecl_load n) (fread_f n) (fwrite_f n) v (free_data n) (serialize n) (deserialize n) (initialize n) (freef n) (clear n) (copyc n) (scale n) (iadd n) (imul n) (isqrt n) (iaddsqr n) (fprintf_results n) (iget n) (get_index n) (node_key n) (data n) (config n) (serial_state n) (__memory_allocated n) (__modified n) (__report_step n) (__state n).
Definition upd_free_data v (n : enkf_node_type) : enkf_node_type :=
  Build_enkf_node_type (alloc n) (ecl_write n) (ecl_load n) (fread_f n) (fwrite_f n) (realloc_data n) v (serialize n) (deserialize n) (initialize n) (freef n) (clear n) (copyc n) (scale n) (iadd n) (imul n) (isqrt n) (iaddsqr n) (fprintf_results n) (iget n) (get_index n) (node_key n) (data n) (config n) (serial_state n) (__memory_allocated n) (__modified n) (__report_step n) (__state n).
Definition upd_serialize v (n : enkf_node_type) : enkf_node_type :=
  Build_enkf_node_type (alloc n) (ecl_write n) (ecl_load n) (fread_f n) (fwrite_f n) (realloc_data n) (free_data n) v (deserialize n) (initialize n) (freef n) (clear n) (copyc n) (scale n) (iadd n) (imul n) (isqrt n) (iaddsqr n) (fprintf_results n) (iget n) (get_index n) (node_key n) (data n) (config n) (serial_state n) (__memory_allocated n) (__modified n) (__report_step n) (__state n).
Definition upd_deserialize v (n : enkf_node_type) : enkf_node_type :=
  Build_enkf_node_type (alloc n) (ecl_write n) (ecl_load n) (fread_f n) (fwrite_f n) (realloc_data n) (free_data n) (serialize n) v (initialize n) (freef n) (clear n) (copyc n) (scale n) (iadd n) (imul n) (isqrt n) (iaddsqr n) (fprintf_results n) (iget n) (get_index n) (node_key n) (data n) (config n) (serial_state n) (__memory_allocated n) (__modified n) (__report_step n) (__state n).
Definition upd_initialize v (n : enkf_node_type) : enkf_node_type :=
  Build_enkf_node_type (alloc n) (ecl_write n) (ecl_load n) (fread_f n) (fwrite_f n) (realloc_data n) (free_data n) (serialize n) (deserialize n) v (freef n) (clear n) (copyc n) (scale n) (iadd n) (imul n) (isqrt n) (iaddsqr n) (fprintf_results n) (iget n) (get_index n) (node_key n) (data n) (config n) (serial_state n) (__memory_allocated n) (__modified n) (__report_step n) (__state n).
Definition upd_freef v (n : enkf_node_type) : enkf_node_type :=
  Build_enkf_node_type (alloc n) (ecl_write n) (ecl_load n) (fread_f n) (fwrite_f n) (realloc_data n) (free_data n) (serialize n) (deserialize n) (initialize n) v (clear n) (copyc n) (scale n) (iadd n) (imul n) (isqrt n) (iaddsqr n) (fprintf_results n) (iget n) (get_index n) (node_key n) (data n) (config n) (serial_state n) (__memory_allocated n) (__modified n) (__report_step n) (__state n).
Definition upd_clear v (n : enkf_node_type) : enkf_node_type :=
  Build_enkf_node_type (alloc n) (ecl_write n) (ecl_load n) (fread_f n) (fwrite_f n) (realloc_data n) (free_data n) (serialize n) (deserialize n) (initialize n) (freef n) v (copyc n) (scale n) (iadd n) (imul n) (isqrt n) (iaddsqr n) (fprintf_results n) (iget n) (get_index n) (node_key n) (data n) (config n) (serial_state n) (__memory_allocated n) (__modified n) (__report_step n) (__state n).
Definition upd_copyc v (n : enkf_node_type) : enkf_node_type :=
  Build_enkf_node_type (alloc n) (ecl_write n) (ecl_load n) (fread_f n) (fwrite_f n) (realloc_data n) (free_data n) (serialize n) (deserialize n) (initialize n) (freef n) (clear n) v (scale n) (iadd n) (imul n) (isqrt n) (iaddsqr n) (fprintf_results n) (iget n) (get_index n) (node_key n) (data n) (config n) (serial_state n) (__memory_allocated n) (__modified n) (__report_step n) (__state n).
Definition upd_scale v (n : enkf_node_type) : enkf_node_type :=
  Build_enkf_node_type (alloc n) (ecl_write n) (ecl_load n) (fread_f n) (fwrite_f n) (realloc_data n) (free_data n) (serialize n) (deserialize n) (initialize n) (freef n) (clear n) (copyc n) v (iadd n) (imul n) (isqrt n) (iaddsqr n) (fprintf_results n) (iget n) (get_index n) (node_key n) (data n) (config n) (serial_state n) (__memory_allocated n) (__modified n) (__report_step n) (__state n).
Definition upd_iadd v (n : enkf_node_type) : enkf_node_type :=
  Build_enkf_node_type (alloc n) (ecl_write n) (ecl_load n) (fread_f n) (fwrite_f n) (realloc_data n) (free_data n) (serialize n) (deserialize n) (initialize n) (freef n) (clear n) (copyc n) (scale n) v (imul n) (isqrt n) (iaddsqr n) (fprintf_results n) (iget n) (get_index n) (node_key n) (data n) (config n) (serial_state n) (__memory_allocated n) (__modified n) (__report_step n) (__state n).
Definition upd_imul v (n : enkf_node_type) : enkf_node_type :=
  Build_enkf_node_type (alloc n) (ecl_write n) (ecl_load n) (fread_f n) (fwrite_f n) (realloc_data n) (free_data n) (serialize n) (deserialize n) (initialize n) (freef n) (clear n) (copyc n) (scale n) (iadd n) v (isqrt n) (iaddsqr n) (fprintf_results n) (iget n) (get_index n) (node_key n) (data n) (config n) (serial_state n) (__memory_allocated n) (__modified n) (__report_step n) (__state n).
Definition upd_isqrt v (n : enkf_node_type) : enkf_node_type :=
  Build_enkf_node_type (alloc n) (ecl_write n) (ecl_load n) (fread_f n) (fwrite_f n) (realloc_data n) (free_data n) (serialize n) (deserialize n) (initialize n) (freef n) (clear n) (copyc n) (scale n) (iadd n) (imul n) v (iaddsqr n) (fprintf_results n) (iget n) (get_index n) (node_key n) (data n) (config n) (serial_state n) (__memory_allocated n) (__modified n) (__report_step n) (__state n).
Definition upd_iaddsqr v (n : enkf_node_type) : enkf_node_type :=
  Build_enkf_node_type (alloc n) (ecl_write n) (ecl_load n) (fread_f n) (fwrite_f n) (realloc_data n) (free_data n) (serialize n) (deserialize n) (initialize n) (freef n) (clear n) (copyc n) (scale n) (iadd n) (imul n) (isqrt n) v (fprintf_results n) (iget n) (get_index n) (node_key n) (data n) (config n) (serial_state n) (__memory_allocated n) (__modified n) (__report_step n) (__state n).
Definition upd_fprintf_results v (n : enkf_node_type) : enkf_node_type :=
  Build_enkf_node_type (alloc n) (ecl_write n) (ecl_load n) (fread_f n) (fwrite_f n) (realloc_data n) (free_data n) (serialize n) (deserialize n) (initialize n) (freef n) (clear n) (copyc n) (scale n) (iadd n) (imul n) (isqrt n) (iaddsqr n) v (iget n) (get_index n) (node_key n) (data n) (config n) (serial_state n) (__memory_allocated n) (__modified n) (__report_step n) (__state n).
Definition upd_iget v (n : enkf_node_type) : enkf_node_type :=
  Build_enkf_node_type (alloc n) (ecl_write n) (ecl_load n) (fread_f n) (fwrite_f n) (realloc_data n) (free_data n) (serialize n) (deserialize n) (initialize n) (freef n) (clear n) (copyc n) (scale n) (iadd n) (imul n) (isqrt n) (iaddsqr n) (fprintf_results n) v (get_index n) (node_key n) (data n) (config n) (serial_state n) (__memory_allocated n) (__modified n) (__report_step n) (__state n).
Definition upd_get_index v (n : enkf_node_type) : enkf_node_type :=
  Build_enkf_node_type (alloc n) (ecl_write n) (ecl_load n) (fread_f n) (fwrite_f n) (realloc_data n) (free_data n) (serialize n) (deserialize n) (initialize n) (freef n) (clear n) (copyc n) (scale n) (iadd n) (imul n) (isqrt n) (iaddsqr n) (fprintf_results n) (iget n) v (node_key n) (data n) (config n) (serial_state n) (__memory_allocated n) (__modified n) (__report_step n) (__state n).
Definition upd_node_key v (n : enkf_node_type) : enkf_node_type :=
  Build_enkf_node_type (alloc n) (ecl_write n) (ecl_load n) (fread_f n) (fwrite_f n) (realloc_data n) (free_data n) (serialize n) (deserialize n) (initialize n) (freef n) (clear n) (copyc n) (scale n) (iadd n) (imul n) (isqrt n) (iaddsqr n) (fprintf_results n) (iget n) (get_index n) v (data n) (config n) (serial_state n) (__memory_allocated n) (__modified n) (__report_step n) (__state n).
Definition upd_data v (n : enkf_node_type) : enkf_node_type :=
  Build_enkf_node_type (alloc n) (ecl_write n) (ecl_load n) (fread_f n) (fwrite_f n) (realloc_data n) (free_data n) (serialize n) (deserialize n) (initialize n) (freef n) (clear n) (copyc n) (scale n) (iadd n) (imul n) (isqrt n) (iaddsqr n) (fprintf_results n) (iget n) (get_index n) (node_key n) v (config n) (serial_state n) (__memory_allocated n) (__modified n) (__report_step n) (__state n).
Definition upd_config v (n : enkf_node_type) : enkf_node_type :=
  Build_enkf_node_type (alloc n) (ecl_write n) (ecl_load n) (fread_f n) (fwrite_f n) (realloc_data n) (free_data n) (serialize n) (deserialize n) (initialize n) (freef n) (clear n) (copyc n) (scale n) (iadd n) (imul n) (isqrt n) (iaddsqr n) (fprintf_results n) (iget n) (get_index n) (node_key n) (data n) v (serial_state n) (__memory_allocated n) (__modified n) (__report_step n) (__state n).
Definition upd_serial_state v (n : enkf_node_type) : enkf_node_type :=
  Build_enkf_node_type (alloc n) (ecl_write n) (ecl_load n) (fread_f n) (fwrite_f n) (realloc_data n) (free_data n) (serialize n) (deserialize n) (initialize n) (freef n) (clear n) (copyc n) (scale n) (iadd n) (imul n) (isqrt n) (iaddsqr n) (fprintf_results n) (iget n) (get_index n) (node_key n) (data n) (config n) v (__memory_allocated n) (__modified n) (__report_step n) (__state n).
Definition upd___memory_allocated v (n : enkf_node_type) : enkf_node_type :=
  Build_enkf_node_type (alloc n) (ecl_write n) (ecl_load n) (fread_f n) (fwrite_f n) (realloc_data n) (free_data n) (serialize n) (deserialize n) (initialize n) (freef n) (clear n) (copyc n) (scale n) (iadd n) (imul n) (isqrt n) (iaddsqr n) (fprintf_results n) (iget n) (get_index n) (node_key n) (data n) (config n) (serial_state n) v (__modified n) (__report_step n) (__state n).
Definition upd___modified v (n : enkf_node_type) : enkf_node_type :=
  Build_enkf_node_type (alloc n) (ecl_write n) (ecl_load n) (fread_f n) (fwrite_f n) (realloc_data n) (free_data n) (serialize n) (deserialize n) (initialize n) (freef n) (clear n) (copyc n) (scale n) (iadd n) (imul n) (isqrt n) (iaddsqr n) (fprintf_results n) (iget n) (get_index n) (node_key n) (data n) (config n) (serial_state n) (__memory_allocated n) v (__report_step n) (__state n).
Definition upd___report_step v (n : enkf_node_type) : enkf_node_type :=
  Build_enkf_node_type (alloc n) (ecl_write n) (ecl_load n) (fread_f n) (fwrite_f n) (realloc_data n) (free_data n) (serialize n) (deserialize n) (initialize n) (freef n) (clear n) (copyc n) (scale n) (iadd n) (imul n) (isqrt n) (iaddsqr n) (fprintf_results n) (iget n) (get_index n) (node_key n) (data n) (config n) (serial_state n) (__memory_allocated n) (__modified n) v (__state n).
Definition upd___state v (n : enkf_node_type) : enkf_node_type :=
  Build_enkf_node_type (alloc n) (ecl_write n) (ecl_load n) (fread_f n) (fwrite_f n) (realloc_data n) (free_data n) (serialize n) (deserialize n) (initialize n) (freef n) (clear n) (copyc n) (scale n) (iadd n) (imul n) (isqrt n) (iaddsqr n) (fprintf_results n) (iget n) (get_index n) (node_key n) (data n) (config n) (serial_state n) (__memory_allocated n) (__modified n) (__report_step n) v.

(** ** The monad of the node functions

    A function of [enkf_node.c] works on one node through a pointer: it
    reads and assigns its fields, calls through its function pointers, and
    may terminate the process. *)
Definition M (A : Type) : Type :=
  enkf_node_type -> outcome (A * enkf_node_type).

Definition ret {A : Type} (a : A) : M A := fun n => Ok (a, n) [].

Definition bind {A B : Type} (m : M A) (k : A -> M B) : M B :=
  fun n =>
    match m n with
    | Ok (a, n1) l1 =>
        match k a n1 with
        | Ok r l2 => Ok r (l1 ++ l2)%list
        | Abort d l2 => Abort d (l1 ++ l2)%list
        | Crash l2 => Crash (l1 ++ l2)%list
        end
    | Abort d l1 => Abort d l1
    | Crash l1 => Crash l1
    end.

Notation "x <- m ;; k" := (bind m (fun x => k))
  (at level 61, m at next level, right associativity).
Notation "m ;; k" := (bind m (fun _ => k))
  (at level 61, right associativity).

Definition get : M enkf_node_type := fun n => Ok (n, n) [].
Definition assign (upd : enkf_node_type -> enkf_node_type) : M unit :=
  fun n => Ok (tt, upd n) [].
Definition emit (e : event) : M unit := fun n => Ok (tt, n) [e].
Definition abort {A : Type} (d : diagnostic) : M A := fun _ => Abort d [].
Definition null_call {A : Type} : M A := fun _ => Crash [].

(** Reading a function pointer in order to call it: through NULL the call
    is undefined behaviour. *)
Definition funcptr {F : Type} (field : enkf_node_type -> option F) : M F :=
  n <- get ;;
  match field n with
  | Some f => ret f
  | None => null_call
  end.

(** The object behind [enkf_node->data] as the called function sees it.
    The functions of the implementation types work on the object they are
    handed, so a NULL object is a NULL dereference inside the callee. *)
Definition object : M payload :=
  n <- get ;;
  match data n with
  | Some d => ret d
  | None => null_call
  end.

(** [f(enkf_node->data , ...)] for an [f] that works on the object in
    place: logged, and the new contents kept behind the same pointer. *)
Definition invoke (e : event) (f : payload -> payload) : M unit :=
  emit e ;;
  d <- object ;;
  assign (upd_data (Some (f d))).

(** The same for an [f] that only reads the object. *)
Definition invoke_const {A : Type} (e : event) (f : payload -> A) : M A :=
  emit e ;;
  d <- object ;;
  ret (f d).

(** ** enkf_node.c *)

Definition enkf_node_get_config (node : enkf_node_type) := config node.

(** The macro [FUNC_ASSERT(func)]: [func__] is [__func__] at the place of
    use and [func] the text of the macro argument. *)
Definition FUNC_ASSERT {F : Type} (func__ func : string)
    (field : enkf_node_type -> option F) : M unit :=
  enkf_node <- get ;;
  match field enkf_node with
  | None => abort (handler_not_registered func__ func (node_key enkf_node))
  | Some _ => ret tt
  end.

Definition enkf_node_ensure_memory : M unit :=
  FUNC_ASSERT "enkf_node_ensure_memory" "enkf_node->realloc_data"
              realloc_data ;;
  enkf_node <- get ;;
  if negb (__memory_allocated enkf_node) then
    f <- funcptr realloc_data ;;
    invoke call_realloc_data f ;;
    assign (upd___memory_allocated true)
  else ret tt.

Definition enkf_node_alloc_domain_object : M unit :=
  node <- get ;;
  match data node with
  | Some d => f <- funcptr freef ;; emit call_freef
  | None => ret tt
  end ;;
  f <- funcptr alloc ;;
  emit call_alloc ;;
  assign (upd_data (Some (f (enkf_config_node_get_ref (config node))))) ;;
  assign (upd___memory_allocated true).

Definition enkf_node_clear_serial_state : M unit :=
  node <- get ;;
  assign (upd_serial_state (serial_state_clear (serial_state node))).

Definition enkf_node_value_ptr (enkf_node : enkf_node_type) : option payload :=
  data enkf_node.

Definition enkf_node_ecl_write (path : string) (restart_fortio : fortio_type)
    : M unit :=
  enkf_node <- get ;;
  match ecl_write enkf_node with
  | Some _ =>
      match enkf_config_node_get_outfile_ref (config enkf_node) with
      | Some node_eclfile =>
          let target_file := util_alloc_full_path path node_eclfile in
          f <- funcptr ecl_write ;;
          invoke_const (call_ecl_write target_file)
                       (fun d => f d target_file restart_fortio)
      | None =>
          f <- funcptr ecl_write ;;
          invoke_const (call_ecl_write path)
                       (fun d => f d path restart_fortio)
      end
  | None => ret tt
  end.

Definition enkf_node_ecl_load (run_path : string) (ecl_sum : ecl_sum_type)
    (restart_block : ecl_block_type) (report_step : Z) : M unit :=
  FUNC_ASSERT "enkf_node_ecl_load" "enkf_node->ecl_load" ecl_load ;;
  enkf_node_ensure_memory ;;
  enkf_node <- get ;;
  match enkf_config_node_get_infile (config enkf_node) with
  | Some input_file =>
      let file := util_alloc_full_path run_path input_file in
      f <- funcptr ecl_load ;;
      invoke (call_ecl_load file)
             (fun d => f d file ecl_sum restart_block report_step)
  | None =>
      f <- funcptr ecl_load ;;
      invoke (call_ecl_load run_path)
             (fun d => f d run_path ecl_sum restart_block report_step)
  end ;;
  assign (upd___report_step report_step) ;;
  assign (upd___state forecast) ;;
  assign (upd___modified false).

Definition enkf_node_ecl_load_static (ecl_kw : ecl_kw_type) (report_step : Z)
    : M unit :=
  invoke call_ecl_static_kw_init (fun d => ecl_static_kw_init d ecl_kw) ;;
  assign (upd___memory_allocated true) ;;
  assign (upd___report_step report_step) ;;
  assign (upd___state forecast) ;;
  assign (upd___modified false).

Definition enkf_node_fwrite (stream : FILE) (report_step : Z)
    (state : state_enum) : M bool :=
  enkf_node <- get ;;
  (if negb (__memory_allocated enkf_node) then
     abort (fatal "enkf_node_fwrite"
              ("fatal internal error: tried to save node:"
               ++ node_key enkf_node
               ++ " - memory is not allocated - aborting."))
   else ret tt) ;;
  FUNC_ASSERT "enkf_node_fwrite" "enkf_node->fwrite_f" fwrite_f ;;
  f <- funcptr fwrite_f ;;
  data_written <- invoke_const call_fwrite_f (fun d => f d stream) ;;
  assign (upd___report_step report_step) ;;
  assign (upd___state state) ;;
  assign (upd___modified false) ;;
  ret data_written.

(** The ensemble is a C array with its length passed beside it; reading
    [ensemble[0]] of an empty array, or [ensemble[iens]] past its end, is
    undefined.  The [FUNC_ASSERT] of this function is commented out in the
    source, so nothing stands before the call through [fprintf_results]. *)
Definition enkf_node_ensemble_fprintf_results
    (ensemble : list enkf_node_type) (ens_size : nat) (report_step : Z)
    (path : string) : outcome unit :=
  match ensemble with
  | [] => Crash []
  | first :: _ =>
      let filename := util_alloc_full_path path (node_key first) in
      if (ens_size <=? List.length ensemble)%nat then
        let data_pointers := map data (firstn ens_size ensemble) in
        match fprintf_results first with
        | Some f =>
            let _ := f data_pointers ens_size filename in
            Ok tt [call_fprintf_results filename]
        | None => Crash []
        end
      else Crash []
  end.

Definition enkf_node___memory_allocated (node : enkf_node_type) : bool :=
  __memory_allocated node.

Definition enkf_node_assert_memory (caller : string) : M unit :=
  enkf_node <- get ;;
  if negb (enkf_node___memory_allocated enkf_node) then
    abort (fatal "enkf_node_assert_memory"
             ("tried to call:" ++ caller
              ++ " without allocated memory for node:" ++ node_key enkf_node
              ++ " - internal ERROR - aborting."))
  else ret tt.

Definition enkf_node_fread (stream : FILE) (report_step : Z)
    (state : state_enum) : M unit :=
  enkf_node <- get ;;
  if Z.eqb report_step (__report_step enkf_node)
     && state_enum_eqb state (__state enkf_node)
     && negb (__modified enkf_node)
  then ret tt
  else
    FUNC_ASSERT "enkf_node_fread" "enkf_node->fread_f" fread_f ;;
    enkf_node_ensure_memory ;;
    f <- funcptr fread_f ;;
    invoke call_fread_f (fun d => f d stream) ;;
    assign (upd___modified false) ;;
    assign (upd___report_step report_step) ;;
    assign (upd___state state).

Definition enkf_node_ens_clear : M unit :=
  FUNC_ASSERT "enkf_node_ens_clear" "enkf_node->clear" clear ;;
  f <- funcptr clear ;;
  invoke call_clear f.

(** Returns [elements_added], what is stored through [complete], and the
    serial vector as the call leaves it. *)
Definition enkf_node_serialize (current_serial_offset : Z)
    (serial_vector : serial_vector_type)
    : M (Z * bool * serial_vector_type) :=
  FUNC_ASSERT "enkf_node_serialize" "enkf_node->serialize" serialize ;;
  enkf_node_assert_memory "enkf_node_serialize" ;;
  f <- funcptr serialize ;;
  enkf_node <- get ;;
  r <- invoke_const call_serialize
         (fun d => f d (serial_state enkf_node) current_serial_offset
                     serial_vector) ;;
  let '(elements_added, ss, vec) := r in
  assign (upd_serial_state ss) ;;
  ret (elements_added, serial_state_complete ss, vec).

(** The assertion names [serialize], the call goes through
    [deserialize]. *)
Definition enkf_node_deserialize (serial_vector : serial_vector_type)
    : M unit :=
  FUNC_ASSERT "enkf_node_deserialize" "enkf_node->serialize" serialize ;;
  f <- funcptr deserialize ;;
  enkf_node <- get ;;
  r <- invoke_const call_deserialize
         (fun d => f d (serial_state enkf_node) serial_vector) ;;
  assign (upd_data (Some (fst r))) ;;
  assign (upd_serial_state (snd r)) ;;
  assign (upd___modified true).

Definition enkf_node_sqrt : M unit :=
  FUNC_ASSERT "enkf_node_sqrt" "enkf_node->isqrt" isqrt ;;
  f <- funcptr isqrt ;;
  invoke call_isqrt f.

Definition enkf_node_scale (scale_factor : double) : M unit :=
  FUNC_ASSERT "enkf_node_scale" "enkf_node->scale" scale ;;
  f <- funcptr scale ;;
  invoke call_scale (fun d => f d scale_factor).

(** [delta_node->data] is handed to the callee as it is; the callee reads
    it. *)
Definition with_delta (delta_node : enkf_node_type) (e : event)
    (f : payload -> payload -> payload) : M unit :=
  match data delta_node with
  | Some delta => invoke e (fun d => f d delta)
  | None => emit e ;; null_call
  end.

Definition enkf_node_iadd (delta_node : enkf_node_type) : M unit :=
  FUNC_ASSERT "enkf_node_iadd" "enkf_node->iadd" iadd ;;
  f <- funcptr iadd ;;
  with_delta delta_node call_iadd f.

Definition enkf_node_iaddsqr (delta_node : enkf_node_type) : M unit :=
  FUNC_ASSERT "enkf_node_iaddsqr" "enkf_node->iaddsqr" iaddsqr ;;
  f <- funcptr iaddsqr ;;
  with_delta delta_node call_iaddsqr f.

Definition enkf_node_imul (delta_node : enkf_node_type) : M unit :=
  FUNC_ASSERT "enkf_node_imul" "enkf_node->imul" imul ;;
  f <- funcptr imul ;;
  with_delta delta_node call_imul f.

Definition enkf_node_initialize (iens : Z) : M unit :=
  enkf_node <- get ;;
  match initialize enkf_node with
  | Some _ =>
      enkf_node_ensure_memory ;;
      f <- funcptr initialize ;;
      invoke call_initialize (fun d => f d iens) ;;
      assign (upd___report_step 0) ;;
      assign (upd___state analyzed) ;;
      assign (upd___modified true)
  | None => ret tt
  end.

Definition enkf_node_free_data : M unit :=
  FUNC_ASSERT "enkf_node_free_data" "enkf_node->free_data" free_data ;;
  f <- funcptr free_data ;;
  invoke call_free_data f ;;
  assign (upd___memory_allocated false) ;;
  assign (upd___report_step (-1)) ;;
  assign (upd___state undefined) ;;
  assign (upd___modified true).

Definition enkf_node_clear : M unit :=
  FUNC_ASSERT "enkf_node_clear" "enkf_node->clear" clear ;;
  f <- funcptr clear ;;
  invoke call_clear f.

Definition enkf_node_get_key (enkf_node : enkf_node_type) : string :=
  node_key enkf_node.

(** [enkf_node_alloc_empty] fills the block that [util_malloc] returned.
    The block comes with whatever it held before: the action runs on that
    block, and the fields the function never assigns ([clear], [scale],
    [iadd], [imul], [isqrt], [iaddsqr]) keep the block's contents. *)
Definition enkf_node_alloc_empty (config : enkf_config_node_type config_ref)
    : M unit :=
  let node_key := enkf_config_node_get_key_ref config in
  let impl_type := enkf_config_node_get_impl_type config in
  assign (upd_config config) ;;
  assign (upd_node_key node_key) ;;
  assign (upd_data None) ;;
  assign (upd___memory_allocated false) ;;
  assign (upd___modified true) ;;
  assign (upd___report_step (-1)) ;;
  assign (upd___state undefined) ;;
  assign (upd_realloc_data None) ;;
  assign (upd_alloc None) ;;
  assign (upd_ecl_write None) ;;
  assign (upd_ecl_load None) ;;
  assign (upd_fread_f None) ;;
  assign (upd_fwrite_f None) ;;
  assign (upd_copyc None) ;;
  assign (upd_initialize None) ;;
  assign (upd_serialize None) ;;
  assign (upd_deserialize None) ;;
  assign (upd_freef None) ;;
  assign (upd_free_data None) ;;
  assign (upd_fprintf_results None) ;;
  assign (upd_iget None) ;;
  assign (upd_get_index None) ;;
  match impl_type with
  | GEN_KW =>
      assign (upd_realloc_data (Some (fn_realloc_data GEN_KW))) ;;
      assign (upd_alloc (Some (fn_alloc GEN_KW))) ;;
      assign (upd_ecl_write (Some (fn_ecl_write GEN_KW))) ;;
      assign (upd_fread_f (Some (fn_fread_f GEN_KW))) ;;
      assign (upd_fwrite_f (Some (fn_fwrite_f GEN_KW))) ;;
      assign (upd_copyc (Some (fn_copyc GEN_KW))) ;;
      assign (upd_initialize (Some (fn_initialize GEN_KW))) ;;
      assign (upd_serialize (Some (fn_serialize GEN_KW))) ;;
      assign (upd_deserialize (Some (fn_deserialize GEN_KW))) ;;
      assign (upd_freef (Some (fn_freef GEN_KW))) ;;
      assign (upd_free_data (Some (fn_free_data GEN_KW))) ;;
      assign (upd_fprintf_results (Some (fn_fprintf_results GEN_KW)))
  | MULTZ =>
      assign (upd_realloc_data (Some (fn_realloc_data MULTZ))) ;;
      assign (upd_alloc (Some (fn_alloc MULTZ))) ;;
      assign (upd_ecl_write (Some (fn_ecl_write MULTZ))) ;;
      assign (upd_fread_f (Some (fn_fread_f MULTZ))) ;;
      assign (upd_fwrite_f (Some (fn_fwrite_f MULTZ))) ;;
      assign (upd_copyc (Some (fn_copyc MULTZ))) ;;
      assign (upd_initialize (Some (fn_initialize MULTZ))) ;;
      assign (upd_serialize (Some (fn_serialize MULTZ))) ;;
      assign (upd_deserialize (Some (fn_deserialize MULTZ))) ;;
      assign (upd_freef (Some (fn_freef MULTZ))) ;;
      assign (upd_free_data (Some (fn_free_data MULTZ)))
  | RELPERM =>
      assign (upd_alloc (Some (fn_alloc RELPERM))) ;;
      assign (upd_ecl_write (Some (fn_ecl_write RELPERM))) ;;
      assign (upd_fread_f (Some (fn_fread_f RELPERM))) ;;
      assign (upd_fwrite_f (Some (fn_fwrite_f RELPERM))) ;;
      assign (upd_copyc (Some (fn_copyc RELPERM))) ;;
      assign (upd_initialize (Some (fn_initialize RELPERM))) ;;
      assign (upd_serialize (Some (fn_serialize RELPERM))) ;;
      assign (upd_deserialize (Some (fn_deserialize RELPERM))) ;;
      assign (upd_freef (Some (fn_freef RELPERM))) ;;
      assign (upd_free_data (Some (fn_free_data RELPERM)))
  | MULTFLT =>
      assign (upd_realloc_data (Some (fn_realloc_data MULTFLT))) ;;
      assign (upd_alloc (Some (fn_alloc MULTFLT))) ;;
      assign (upd_ecl_write (Some (fn_ecl_write MULTFLT))) ;;
      assign (upd_fread_f (Some (fn_fread_f MULTFLT))) ;;
      assign (upd_fwrite_f (Some (fn_fwrite_f MULTFLT))) ;;
      assign (upd_copyc (Some (fn_copyc MULTFLT))) ;;
      assign (upd_initialize (Some (fn_initialize MULTFLT))) ;;
      assign (upd_serialize (Some (fn_serialize MULTFLT))) ;;
      assign (upd_deserialize (Some (fn_deserialize MULTFLT))) ;;
      assign (upd_freef (Some (fn_freef MULTFLT))) ;;
      assign (upd_free_data (Some (fn_free_data MULTFLT))) ;;
      assign (upd_fprintf_results (Some (fn_fprintf_results MULTFLT)))
  | WELL =>
      assign (upd_ecl_load (Some (fn_ecl_load WELL))) ;;
      assign (upd_realloc_data (Some (fn_realloc_data WELL))) ;;
      assign (upd_alloc (Some (fn_alloc WELL))) ;;
      assign (upd_fread_f (Some (fn_fread_f WELL))) ;;
      assign (upd_fwrite_f (Some (fn_fwrite_f WELL))) ;;
      assign (upd_copyc (Some (fn_copyc WELL))) ;;
      assign (upd_serialize (Some (fn_serialize WELL))) ;;
      assign (upd_deserialize (Some (fn_deserialize WELL))) ;;
      assign (upd_freef (Some (fn_freef WELL))) ;;
      assign (upd_free_data (Some (fn_free_data WELL))) ;;
      assign (upd_fprintf_results (Some (fn_fprintf_results WELL)))
  | SUMMARY =>
      assign (upd_ecl_load (Some (fn_ecl_load SUMMARY))) ;;
      assign (upd_realloc_data (Some (fn_realloc_data SUMMARY))) ;;
      assign (upd_alloc (Some (fn_alloc SUMMARY))) ;;
      assign (upd_fread_f (Some (fn_fread_f SUMMARY))) ;;
      assign (upd_fwrite_f (Some (fn_fwrite_f SUMMARY))) ;;
      assign (upd_copyc (Some (fn_copyc SUMMARY))) ;;
      assign (upd_serialize (Some (fn_serialize SUMMARY))) ;;
      assign (upd_deserialize (Some (fn_deserialize SUMMARY))) ;;
      assign (upd_freef (Some (fn_freef SUMMARY))) ;;
      assign (upd_free_data (Some (fn_free_data SUMMARY)))
  | HAVANA_FAULT =>
      assign (upd_realloc_data (Some (fn_realloc_data HAVANA_FAULT))) ;;
      assign (upd_alloc (Some (fn_alloc HAVANA_FAULT))) ;;
      assign (upd_ecl_write (Some (fn_ecl_write HAVANA_FAULT))) ;;
      assign (upd_fread_f (Some (fn_fread_f HAVANA_FAULT))) ;;
      assign (upd_fwrite_f (Some (fn_fwrite_f HAVANA_FAULT))) ;;
      assign (upd_copyc (Some (fn_copyc HAVANA_FAULT))) ;;
      assign (upd_serialize (Some (fn_serialize HAVANA_FAULT))) ;;
      assign (upd_deserialize (Some (fn_deserialize HAVANA_FAULT))) ;;
      assign (upd_freef (Some (fn_freef HAVANA_FAULT))) ;;
      assign (upd_free_data (Some (fn_free_data HAVANA_FAULT))) ;;
      assign (upd_initialize (Some (fn_initialize HAVANA_FAULT))) ;;
      assign (upd_fprintf_results (Some (fn_fprintf_results HAVANA_FAULT)))
  | FIELD =>
      assign (upd_realloc_data (Some (fn_realloc_data FIELD))) ;;
      assign (upd_alloc (Some (fn_alloc FIELD))) ;;
      assign (upd_ecl_write (Some (fn_ecl_write FIELD))) ;;
      assign (upd_ecl_load (Some (fn_ecl_load FIELD))) ;;
      assign (upd_fread_f (Some (fn_fread_f FIELD))) ;;
      assign (upd_fwrite_f (Some (fn_fwrite_f FIELD))) ;;
      assign (upd_copyc (Some (fn_copyc FIELD))) ;;
      assign (upd_initialize (Some (fn_initialize FIELD))) ;;
      assign (upd_serialize (Some (fn_serialize FIELD))) ;;
      assign (upd_deserialize (Some (fn_deserialize FIELD))) ;;
      assign (upd_freef (Some (fn_freef FIELD))) ;;
      assign (upd_free_data (Some (fn_free_data FIELD))) ;;
      assign (upd_iget (Some (fn_iget FIELD)))
  | EQUIL =>
      assign (upd_alloc (Some (fn_alloc EQUIL))) ;;
      assign (upd_ecl_write (Some (fn_ecl_write EQUIL))) ;;
      assign (upd_fread_f (Some (fn_fread_f EQUIL))) ;;
      assign (upd_fwrite_f (Some (fn_fwrite_f EQUIL))) ;;
      assign (upd_copyc (Some (fn_copyc EQUIL))) ;;
      assign (upd_initialize (Some (fn_initialize EQUIL))) ;;
      assign (upd_serialize (Some (fn_serialize EQUIL))) ;;
      assign (upd_deserialize (Some (fn_deserialize EQUIL))) ;;
      assign (upd_freef (Some (fn_freef EQUIL))) ;;
      assign (upd_free_data (Some (fn_free_data EQUIL)))
  | STATIC =>
      assign (upd_realloc_data (Some (fn_realloc_data STATIC))) ;;
      assign (upd_ecl_write (Some (fn_ecl_write STATIC))) ;;
      assign (upd_alloc (Some (fn_alloc STATIC))) ;;
      assign (upd_fread_f (Some (fn_fread_f STATIC))) ;;
      assign (upd_fwrite_f (Some (fn_fwrite_f STATIC))) ;;
      assign (upd_copyc (Some (fn_copyc STATIC))) ;;
      assign (upd_freef (Some (fn_freef STATIC))) ;;
      assign (upd_free_data (Some (fn_free_data STATIC)))
  | GEN_DATA =>
      assign (upd_realloc_data (Some (fn_realloc_data GEN_DATA))) ;;
      assign (upd_alloc (Some (fn_alloc GEN_DATA))) ;;
      assign (upd_fread_f (Some (fn_fread_f GEN_DATA))) ;;
      assign (upd_fwrite_f (Some (fn_fwrite_f GEN_DATA))) ;;
      assign (upd_initialize (Some (fn_initialize GEN_DATA))) ;;
      assign (upd_copyc (Some (fn_copyc GEN_DATA))) ;;
      assign (upd_freef (Some (fn_freef GEN_DATA))) ;;
      assign (upd_free_data (Some (fn_free_data GEN_DATA))) ;;
      assign (upd_ecl_write (Some (fn_ecl_write GEN_DATA))) ;;
      assign (upd_serialize (Some (fn_serialize GEN_DATA))) ;;
      assign (upd_deserialize (Some (fn_deserialize GEN_DATA)))
  | other_impl _ =>
      abort (fatal "enkf_node_alloc_empty"
               "implementation type unknown - all hell is loose - aborting")
  end ;;
  assign (upd_serial_state serial_state_alloc).

Definition enkf_node_alloc__ (config : enkf_config_node_type config_ref)
    : M unit :=
  enkf_node_alloc_empty config ;;
  enkf_node_alloc_domain_object.

(** [config] is a pointer here, and NULL is tested for. *)
Definition enkf_node_alloc
    (config : option (enkf_config_node_type config_ref)) : M unit :=
  match config with
  | None =>
      abort (fatal "enkf_node_alloc"
               "internal error - must use enkf_node_alloc_static() to allocate static nodes.")
  | Some c => enkf_node_alloc__ c
  end.

(** [enkf_node_copyc]: [block] is what [util_malloc] hands to the
    [enkf_node_alloc] inside.  The [return new] after the second [abort()]
    is never reached. *)
Definition enkf_node_copyc (block : enkf_node_type) (src : enkf_node_type)
    : outcome enkf_node_type :=
  match copyc src with
  | None => Abort (printed "Har ikke copyc funksjon") []
  | Some _ =>
      match enkf_node_alloc (Some (config src)) block with
      | Ok (_, new) log =>
          Abort (printed "enkf_node_copyc: not properly implemented ... ") log
      | Abort d log => Abort d log
      | Crash log => Crash log
      end
  end.

(** ** Sequences of calls on one node *)

(** The exported functions that take the node by non-const pointer or
    hand its object to a callee. *)
Inductive operation : Type :=
| op_alloc_domain_object
| op_clear_serial_state
| op_ecl_write (path : string) (restart_fortio : fortio_type)
| op_ecl_load (run_path : string) (ecl_sum : ecl_sum_type)
              (restart_block : ecl_block_type) (report_step : Z)
| op_ecl_load_static (ecl_kw : ecl_kw_type) (report_step : Z)
| op_fwrite (stream : FILE) (report_step : Z) (state : state_enum)
| op_fread (stream : FILE) (report_step : Z) (state : state_enum)
| op_ens_clear
| op_serialize (current_serial_offset : Z) (serial_vector : serial_vector_type)
| op_deserialize (serial_vector : serial_vector_type)
| op_sqrt
| op_scale (scale_factor : double)
| op_iadd (delta_node : enkf_node_type)
| op_iaddsqr (delta_node : enkf_node_type)
| op_imul (delta_node : enkf_node_type)
| op_initialize (iens : Z)
| op_free_data
| op_clear.

Definition exec (o : operation) : M unit :=
  match o with
  | op_alloc_domain_object => enkf_node_alloc_domain_object
  | op_clear_serial_state => enkf_node_clear_serial_state
  | op_ecl_write path restart_fortio => enkf_node_ecl_write path restart_fortio
  | op_ecl_load run_path ecl_sum restart_block report_step =>
      enkf_node_ecl_load run_path ecl_sum restart_block report_step
  | op_ecl_load_static ecl_kw report_step =>
      enkf_node_ecl_load_static ecl_kw report_step
  | op_fwrite stream report_step state =>
      enkf_node_fwrite stream report_step state ;; ret tt
  | op_fread stream report_step state => enkf_node_fread stream report_step state
  | op_ens_clear => enkf_node_ens_clear
  | op_serialize current_serial_offset serial_vector =>
      enkf_node_serialize current_serial_offset serial_vector ;; ret tt
  | op_deserialize serial_vector => enkf_node_deserialize serial_vector
  | op_sqrt => enkf_node_sqrt
  | op_scale scale_factor => enkf_node_scale scale_factor
  | op_iadd delta_node => enkf_node_iadd delta_node
  | op_iaddsqr delta_node => enkf_node_iaddsqr delta_node
  | op_imul delta_node => enkf_node_imul delta_node
  | op_initialize iens => enkf_node_initialize iens
  | op_free_data => enkf_node_free_data
  | op_clear => enkf_node_clear
  end.

Fixpoint exec_all (os : list operation) : M unit :=
  match os with
  | [] => ret tt
  | o :: rest => exec o ;; exec_all rest
  end.

(** What a call may be given, as a predicate on the calls of a run. *)
Definition any_arguments (o : operation) : Prop := True.

(** A node handle: what [enkf_node_alloc] returned, after any number of
    calls (each one allowed by [allowed]) that returned. *)
Inductive reachable_by (allowed : operation -> Prop)
    : enkf_node_type -> Prop :=
| reachable_alloc block config node log :
    enkf_node_alloc (Some config) block = Ok (tt, node) log ->
    reachable_by allowed node
| reachable_exec node o node' log :
    reachable_by allowed node ->
    allowed o ->
    exec o node = Ok (tt, node') log ->
    reachable_by allowed node'.

Definition reachable : enkf_node_type -> Prop := reachable_by any_arguments.

(** The test at the head of [enkf_node_fread]. *)
Definition in_memory_agrees (n : enkf_node_type) (report_step : Z)
    (state : state_enum) : bool :=
  Z.eqb report_step (__report_step n)
  && state_enum_eqb state (__state n)
  && negb (__modified n).

(** The relation between [__state] and [__report_step] that the data model
    names as invariant. *)
Definition state_matches_step (n : enkf_node_type) : Prop :=
  __state n = undefined <-> __report_step n = -1.

(** Calls whose (state, report_step) arguments are themselves related that
    way; [enkf_node_ecl_load] and [enkf_node_ecl_load_static] set the state
    to [forecast] whatever the step. *)
Definition consistent_arguments (o : operation) : Prop :=
  match o with
  | op_fread _ report_step state
  | op_fwrite _ report_step state => state = undefined <-> report_step = -1
  | op_ecl_load _ _ _ report_step
  | op_ecl_load_static _ report_step => report_step <> -1
  | _ => True
  end.

(** [func != NULL] *)
Definition bound {F : Type} (func : option F) : bool :=
  match func with
  | Some _ => true
  | None => false
  end.

Definition known_impl (impl_type : enkf_impl_type) : bool :=
  match impl_type with
  | other_impl _ => false
  | _ => true
  end.

(** What every case of the switch in [enkf_node_alloc_empty] assigns. *)
Definition wired (n : enkf_node_type) : Prop :=
  bound (alloc n) = true /\
  bound (freef n) = true /\
  bound (fread_f n) = true /\
  bound (fwrite_f n) = true /\
  bound (free_data n) = true /\
  bound (copyc n) = true /\
  bound (deserialize n) = bound (serialize n) /\
  known_impl (enkf_config_node_get_impl_type (config n)) = true.

(** The fields no function assigns after construction. *)
Definition handlers_kept (n n' : enkf_node_type) : Prop :=
  alloc n' = alloc n /\
  ecl_write n' = ecl_write n /\
  ecl_load n' = ecl_load n /\
  fread_f n' = fread_f n /\
  fwrite_f n' = fwrite_f n /\
  realloc_data n' = realloc_data n /\
  free_data n' = free_data n /\
  serialize n' = serialize n /\
  deserialize n' = deserialize n /\
  initialize n' = initialize n /\
  freef n' = freef n /\
  clear n' = clear n /\
  copyc n' = copyc n /\
  scale n' = scale n /\
  iadd n' = iadd n /\
  imul n' = imul n /\
  isqrt n' = isqrt n /\
  iaddsqr n' = iaddsqr n /\
  fprintf_results n' = fprintf_results n /\
  iget n' = iget n /\
  get_index n' = get_index n /\
  node_key n' = node_key n /\
  config n' = config n.

(** ** The remaining queries of enkf_node.c *)

(** [node_function_type]: the twelve labels of the switch in
    [enkf_node_has_func]; any other value takes its [default] branch. *)
Inductive node_function_type : Type :=
| alloc_func | ecl_write_func | ecl_load_func | fread_func | fwrite_func
| copyc_func | initialize_func | serialize_func | deserialize_func
| free_func | free_data_func | ensemble_fprintf_results_func
| other_func (code : Z).

(** [enkf_node_has_func], with the macro [CASE_SET] expanded.  Returns
    [has_func] and what the [default] branch writes to stderr; that branch
    prints and goes on to [return has_func]. *)
Definition enkf_node_has_func (node : enkf_node_type)
    (function_type : node_function_type) : bool * option diagnostic :=
  let has_func := false in
  match function_type with
  | alloc_func => (bound (alloc node), None)
  | ecl_write_func => (bound (ecl_write node), None)
  | ecl_load_func => (bound (ecl_load node), None)
  | fread_func => (bound (fread_f node), None)
  | fwrite_func => (bound (fwrite_f node), None)
  | copyc_func => (bound (copyc node), None)
  | initialize_func => (bound (initialize node), None)
  | serialize_func => (bound (serialize node), None)
  | deserialize_func => (bound (deserialize node), None)
  | free_func => (bound (freef node), None)
  | free_data_func => (bound (free_data node), None)
  | ensemble_fprintf_results_func => (bound (fprintf_results node), None)
  | other_func _ =>
      (has_func,
       Some (printed "enkf_node_has_func: node_function_identifier: not recognized - aborting "))
  end.

Definition enkf_node_get_impl_type (enkf_node : enkf_node_type)
    : enkf_impl_type :=
  enkf_config_node_get_impl_type (config enkf_node).

End Node.

(** ** A concrete instance to run the functions on

    The object is a record with one data pointer, as the note on memory in
    the source describes the enkf objects: [realloc_data] returns at once
    if the object already has data, [free_data] frees the data and sets the
    pointer to NULL.  A stream and a serial vector are lists of numbers. *)
#[export] Instance sample_externals : Externals := {|
  payload := option (list Z);
  config_ref := nat;
  FILE := list Z;
  fortio_type := unit;
  ecl_sum_type := unit;
  ecl_block_type := list Z;
  ecl_kw_type := list Z;
  serial_state_type := nat;
  serial_vector_type := list Z;
  double := Z;
  iget_ftype := unit;
  get_index_ftype := unit;
  serial_state_alloc := 0%nat;
  serial_state_clear := fun _ => 0%nat;
  serial_state_complete := fun _ => true;
  ecl_static_kw_init := fun _ kw => Some kw;
  util_alloc_full_path := fun path file => path ++ "/" ++ file;
  fn_alloc := fun _ size => Some (repeat 0 size);
  fn_ecl_write := fun _ _ _ _ => tt;
  fn_ecl_load := fun _ _ _ _ block _ => Some block;
  fn_fread_f := fun _ _ stream => Some stream;
  fn_fwrite_f := fun _ d _ => match d with Some _ => true | None => false end;
  fn_realloc_data := fun _ d =>
    match d with Some b => Some b | None => Some [0; 0; 0; 0] end;
  fn_free_data := fun _ _ => None;
  fn_serialize := fun _ d ss _ vec =>
    match d with
    | Some b => (Z.of_nat (List.length b), S ss, (vec ++ b)%list)
    | None => (0, S ss, vec)
    end;
  fn_deserialize := fun _ _ ss vec => (Some vec, ss);
  fn_initialize := fun _ d iens =>
    match d with Some b => Some (map (fun _ => iens) b) | None => None end;
  fn_freef := fun _ _ => tt;
  fn_copyc := fun _ d => d;
  fn_fprintf_results := fun _ _ _ _ => tt;
  fn_iget := fun _ => tt
|}.

(** A block of zeroes, as [util_malloc] may well return it. *)
Definition zero_block : enkf_node_type := {|
  alloc := None; ecl_write := None; ecl_load := None; fread_f := None;
  fwrite_f := None; realloc_data := None; free_data := None;
  serialize := None; deserialize := None; initialize := None;
  freef := None; clear := None; copyc := None; scale := None; iadd := None;
  imul := None; isqrt := None; iaddsqr := None; fprintf_results := None;
  iget := None; get_index := None;
  node_key := ""; data := None;
  config := {| enkf_config_node_get_key_ref := "";
               enkf_config_node_get_impl_type := other_impl 0;
               enkf_config_node_get_ref := 0%nat;
               enkf_config_node_get_outfile_ref := None;
               enkf_config_node_get_infile := None |};
  serial_state := 0%nat;
  __memory_allocated := false; __modified := false;
  __report_step := 0; __state := undefined
|}.

Definition sample_config (key : string) (impl_type : enkf_impl_type)
    : enkf_config_node_type nat := {|
  enkf_config_node_get_key_ref := key;
  enkf_config_node_get_impl_type := impl_type;
  enkf_config_node_get_ref := 4%nat;
  enkf_config_node_get_outfile_ref := None;
  enkf_config_node_get_infile := None
|}.

(** The node a run leaves behind, when it returned. *)
Definition node_of (r : outcome (unit * enkf_node_type)) : enkf_node_type :=
  match r with
  | Ok (_, n) _ => n
  | _ => zero_block
  end.

Definition new_node (key : string) (impl_type : enkf_impl_type)
    : enkf_node_type :=
  node_of (enkf_node_alloc (Some (sample_config key impl_type)) zero_block).

Definition relperm_node : enkf_node_type := new_node "RELPERM" RELPERM.
Definition field_node : enkf_node_type := new_node "PORO" FIELD.
Definition well_node : enkf_node_type := new_node "WELL-1" WELL.
Definition multz_node : enkf_node_type := new_node "MULTZ" MULTZ.
Definition static_node : enkf_node_type := new_node "SWAT" STATIC.


(** A STATIC node written at step 3 as forecast. *)
Definition static_written : enkf_node_type :=
  node_of (exec_all [op_fwrite [] 3 forecast] static_node).

(** A FIELD node written at step 3 as forecast. *)
Definition field_written : enkf_node_type :=
  node_of (exec_all [op_fwrite [] 3 forecast] field_node).

(** A FIELD node loaded from the ensemble with step -1 as forecast. *)
Definition field_loaded_at_minus_one : enkf_node_type :=
  node_of (enkf_node_fread [1; 2] (-1) forecast field_node).

(** A FIELD node after [enkf_node_free_data]. *)
Definition field_freed : enkf_node_type :=
  node_of (enkf_node_free_data field_node).

Definition multflt_node : enkf_node_type := new_node "MULTFLT" MULTFLT.

(** A FIELD node written, freed, and initialized again. *)
Definition field_reinitialized : enkf_node_type :=
  node_of (exec_all [op_fwrite [] 3 forecast; op_free_data; op_initialize 7]
             field_node).

(** * Properties *)

Section Properties.
Context {ext : Externals}.

(** Unfolds the node functions and the monad down to matches on the fields
    of the node. *)
Ltac unfold_node :=
  cbv [enkf_node_fread enkf_node_fwrite enkf_node_ensure_memory
       enkf_node_deserialize enkf_node_serialize enkf_node_assert_memory
       enkf_node___memory_allocated
       enkf_node_initialize enkf_node_free_data enkf_node_ecl_load
       enkf_node_ecl_load_static enkf_node_ecl_write
       enkf_node_alloc_domain_object enkf_node_clear_serial_state
       enkf_node_ens_clear enkf_node_clear enkf_node_sqrt enkf_node_scale
       enkf_node_iadd enkf_node_iaddsqr enkf_node_imul with_delta
       FUNC_ASSERT funcptr object invoke invoke_const
       bind ret get assign emit abort null_call].

(** Case analysis on the field that decides the next step of a run. *)
Ltac case_innermost x :=
  lazymatch x with
  | context [match ?y with _ => _ end] => case_innermost y
  | _ => destruct x eqn:?
  end.

Ltac split_node :=
  repeat (cbn;
    match goal with
    | H : ?x = _ |- context [match ?x with _ => _ end] => rewrite H
    | |- context [match ?x with _ => _ end] => case_innermost x
    end).

(** Follows a run along the equations on the fields that are at hand. *)
Ltac run_node :=
  repeat (cbn;
    match goal with
    | H : ?x = _ |- context [match ?x with _ => _ end] => rewrite H
    end).

(** *** The two paths of enkf_node_fread *)

Lemma fread_skip (n : enkf_node_type) stream report_step state :
  in_memory_agrees n report_step state = true ->
  enkf_node_fread stream report_step state n = Ok (tt, n) [].
Proof.
  unfold in_memory_agrees. intros H. unfold_node. rewrite H. reflexivity.
Qed.

Lemma fread_load (n : enkf_node_type) stream report_step state f r d :
  in_memory_agrees n report_step state = false ->
  fread_f n = Some f -> realloc_data n = Some r -> data n = Some d ->
  enkf_node_fread stream report_step state n =
  if __memory_allocated n then
    Ok (tt, upd___state state (upd___report_step report_step
             (upd___modified false (upd_data (Some (f d stream)) n))))
       [call_fread_f]
  else
    Ok (tt, upd___state state (upd___report_step report_step
             (upd___modified false (upd_data (Some (f (r d) stream))
                (upd___memory_allocated true (upd_data (Some (r d)) n))))))
       [call_realloc_data; call_fread_f].
Proof.
  unfold in_memory_agrees. intros H Hf Hr Hd. unfold_node. rewrite H.
  rewrite Hf, Hr.
  destruct (__memory_allocated n) eqn:Hm; cbn; rewrite ?Hf, ?Hr, ?Hd; cbn; rewrite ?Hf; reflexivity.
Qed.

(** *** The function pointers stay as construction left them *)

Lemma exec_handlers_kept (o : operation) (n n' : enkf_node_type) log :
  exec o n = Ok (tt, n') log -> handlers_kept n n'.
Proof.
  destruct o; cbv [exec]; unfold_node; split_node; intros H;
    try discriminate H; inversion H; subst; cbn;
    unfold handlers_kept; cbn; repeat split.
Qed.

(** *** What construction establishes *)

Lemma alloc_result block cfg n log :
  enkf_node_alloc (Some cfg) block = Ok (tt, n) log ->
  wired n /\ config n = cfg /\
  data n = option_map (fun f => f (enkf_config_node_get_ref cfg)) (alloc n) /\
  bound (data n) = true /\
  __memory_allocated n = true /\ __modified n = true /\
  __state n = undefined /\ __report_step n = -1 /\
  log = [call_alloc].
Proof.
  cbv beta iota zeta
      delta [enkf_node_alloc enkf_node_alloc__ enkf_node_alloc_empty].
  destruct (enkf_config_node_get_impl_type cfg) eqn:E; intros H;
    cbv in H; try discriminate H;
    injection H as Hn Hl; subst n log;
    unfold wired; cbn; rewrite E; cbn; repeat split.
Qed.

(** *** What every call keeps *)

Lemma exec_keeps_wired o n n' log :
  exec o n = Ok (tt, n') log -> wired n -> wired n'.
Proof.
  intros H W. apply exec_handlers_kept in H. unfold handlers_kept in H.
  unfold wired in *.
  repeat match goal with H : _ /\ _ |- _ => destruct H end.
  repeat match goal with H : _ n' = _ n |- _ => rewrite H; clear H end.
  repeat split; assumption.
Qed.

Lemma exec_keeps_object o n n' log :
  exec o n = Ok (tt, n') log ->
  bound (data n) = true -> bound (data n') = true.
Proof.
  destruct o; cbv [exec]; unfold_node; split_node; intros H B;
    try discriminate H; try discriminate B;
    inversion H; subst; cbn; try reflexivity; try assumption;
    repeat match goal with E : data _ = _ |- _ => rewrite E end;
    reflexivity.
Qed.


Lemma exec_keeps_state_step o n n' log :
  consistent_arguments o ->
  exec o n = Ok (tt, n') log ->
  state_matches_step n -> state_matches_step n'.
Proof.
  unfold state_matches_step.
  destruct o; cbv [exec consistent_arguments]; unfold_node; intros C;
    split_node; intros H I;
    try discriminate H; inversion H; subst; clear H; cbn;
    try exact I; try exact C;
    split; intros; (discriminate || reflexivity || contradiction).
Qed.

Lemma reachable_wired n : reachable n -> wired n.
Proof.
  induction 1 as [block config node log A | node o node' log _ IH _ E].
  - apply alloc_result in A. tauto.
  - eapply exec_keeps_wired; eassumption.
Qed.

Lemma reachable_object n : reachable n -> bound (data n) = true.
Proof.
  induction 1 as [block config node log A | node o node' log _ IH _ E].
  - apply alloc_result in A. tauto.
  - eapply exec_keeps_object; eassumption.
Qed.


(** *** enkf_node_fread *)

Lemma fread_abort_realloc (n : enkf_node_type)
    stream report_step state :
  in_memory_agrees n report_step state = false ->
  fread_f n <> None -> realloc_data n = None ->
  enkf_node_fread stream report_step state n =
  Abort (handler_not_registered "enkf_node_ensure_memory"
           "enkf_node->realloc_data" (node_key n)) [].
Proof.
  unfold in_memory_agrees. intros H Hf Hr.
  destruct (fread_f n) eqn:E; [|contradiction].
  unfold_node. rewrite H, E, Hr. reflexivity.
Qed.

(** The paths of [enkf_node_fread], on any node.  It returns at once, with
    the node as it was and nothing called, when the step and state asked
    for are the node's and the node is not modified.  Otherwise, with
    [fread_f] and [realloc_data] both registered, it calls [realloc_data]
    when (and only when) memory is not allocated, then [fread_f], and
    leaves the node at (state, report_step, not modified) with memory
    allocated; without [fread_f] or without [realloc_data] the
    [FUNC_ASSERT] in its way aborts. *)
Theorem fread_skips_or_loads (n : enkf_node_type) stream report_step state :
  (in_memory_agrees n report_step state = true ->
   enkf_node_fread stream report_step state n = Ok (tt, n) []) /\
  (in_memory_agrees n report_step state = false ->
   forall f r d,
     fread_f n = Some f -> realloc_data n = Some r -> data n = Some d ->
     exists n',
       enkf_node_fread stream report_step state n =
       Ok (tt, n')
          ((if __memory_allocated n then [] else [call_realloc_data])
           ++ [call_fread_f])%list /\
       data n' = Some (f (if __memory_allocated n then d else r d) stream) /\
       __memory_allocated n' = true /\
       __state n' = state /\ __report_step n' = report_step /\
       __modified n' = false /\
       handlers_kept n n') /\
  (in_memory_agrees n report_step state = false ->
   fread_f n = None ->
   enkf_node_fread stream report_step state n =
   Abort (handler_not_registered "enkf_node_fread" "enkf_node->fread_f"
            (node_key n)) []) /\
  (in_memory_agrees n report_step state = false ->
   fread_f n <> None -> realloc_data n = None ->
   enkf_node_fread stream report_step state n =
   Abort (handler_not_registered "enkf_node_ensure_memory"
            "enkf_node->realloc_data" (node_key n)) []).
Proof.
  split; [apply fread_skip|].
  split; [|split].
  - intros H f r d Hf Hr Hd.
    rewrite (fread_load n stream report_step state f r d H Hf Hr Hd).
    destruct (__memory_allocated n) eqn:Hm; eexists;
      (split; [reflexivity|]);
      cbn; unfold handlers_kept; cbn; repeat split; exact Hm.
  - unfold in_memory_agrees. intros H Hf. unfold_node.
    rewrite H, Hf. reflexivity.
  - apply fread_abort_realloc.
Qed.

(** *** enkf_node_deserialize, then enkf_node_fread *)

Lemma deserialize_run (n : enkf_node_type) serial_vector s f d :
  serialize n = Some s -> deserialize n = Some f -> data n = Some d ->
  enkf_node_deserialize serial_vector n =
  Ok (tt, upd___modified true
            (upd_serial_state (snd (f d (serial_state n) serial_vector))
               (upd_data (Some (fst (f d (serial_state n) serial_vector))) n)))
     [call_deserialize].
Proof.
  intros Hs Hf Hd. unfold_node. rewrite Hs, Hf. cbn. rewrite Hd. reflexivity.
Qed.

Lemma modified_never_agrees (n : enkf_node_type) report_step state :
  __modified n = true -> in_memory_agrees n report_step state = false.
Proof.
  unfold in_memory_agrees. intros ->. cbn. apply andb_false_r.
Qed.

(** C2 (as amended).  On a node handle whose type registers [serialize]
    (and with it [deserialize]), [enkf_node_deserialize] returns with the
    node modified and its state and report step as they were; the next
    [enkf_node_fread], whatever step and state it asks for, does not take
    the early return, and with [realloc_data] registered it reads through
    [fread_f].  On a node handle whose type registers no [serialize],
    [enkf_node_deserialize] aborts. *)
Theorem deserialize_forces_reload (n : enkf_node_type) serial_vector :
  reachable n ->
  (bound (serialize n) = false ->
   enkf_node_deserialize serial_vector n =
   Abort (handler_not_registered "enkf_node_deserialize"
            "enkf_node->serialize" (node_key n)) []) /\
  (bound (serialize n) = true ->
   exists n',
     enkf_node_deserialize serial_vector n = Ok (tt, n') [call_deserialize] /\
     __modified n' = true /\
     __state n' = __state n /\ __report_step n' = __report_step n /\
     forall stream report_step state,
       in_memory_agrees n' report_step state = false /\
       (bound (realloc_data n) = true ->
        exists n'',
          enkf_node_fread stream report_step state n' =
          Ok (tt, n'')
             ((if __memory_allocated n then [] else [call_realloc_data])
              ++ [call_fread_f])%list /\
          __modified n'' = false /\
          __state n'' = state /\ __report_step n'' = report_step)).
Proof.
  intros R. split.
  { intros Hs. destruct (serialize n) eqn:Es; [discriminate Hs|].
    unfold_node. rewrite Es. reflexivity. }
  intros Hs.
  pose proof (reachable_wired n R) as (_ & _ & Hr & _ & _ & _ & Hds & _).
  pose proof (reachable_object n R) as Hd.
  rewrite Hs in Hds.
  destruct (serialize n) as [s|] eqn:Es; [|discriminate Hs].
  destruct (deserialize n) as [f|] eqn:Ef; [|discriminate Hds].
  destruct (data n) as [d|] eqn:Ed; [|discriminate Hd].
  destruct (fread_f n) as [g|] eqn:Eg; [|discriminate Hr].
  eexists. split; [apply (deserialize_run n serial_vector s f d Es Ef Ed)|].
  split; [reflexivity|]. split; [reflexivity|]. split; [reflexivity|].
  intros stream report_step state.
  split; [apply modified_never_agrees; reflexivity|].
  intros Hb. destruct (realloc_data n) as [r|] eqn:Er; [|discriminate Hb].
  erewrite fread_load;
    [ | apply modified_never_agrees; reflexivity
      | cbn; exact Eg | cbn; exact Er | cbn; reflexivity ].
  cbn. destruct (__memory_allocated n); eexists;
    (split; [reflexivity|]); cbn; repeat split.
Qed.

(** *** enkf_node_fwrite *)

(** C6.  On every node handle, [enkf_node_fwrite] aborts (through
    [util_abort]) when memory is not allocated; when it is, the call goes
    through the registered [fwrite_f], returns what that returned, and
    leaves the node at (state, report_step, not modified). *)
Theorem fwrite_aborts_or_writes (n : enkf_node_type) stream report_step state :
  reachable n ->
  (__memory_allocated n = false ->
   enkf_node_fwrite stream report_step state n =
   Abort (fatal "enkf_node_fwrite"
            ("fatal internal error: tried to save node:" ++ node_key n
             ++ " - memory is not allocated - aborting.")) []) /\
  (__memory_allocated n = true ->
   exists f d n',
     fwrite_f n = Some f /\ data n = Some d /\
     enkf_node_fwrite stream report_step state n =
     Ok (f d stream, n') [call_fwrite_f] /\
     __state n' = state /\ __report_step n' = report_step /\
     __modified n' = false /\
     __memory_allocated n' = true /\ data n' = data n /\
     handlers_kept n n').
Proof.
  intros R.
  pose proof (reachable_wired n R) as (_ & _ & _ & Hw & _).
  pose proof (reachable_object n R) as Hd.
  split.
  - intros Hm. unfold_node. rewrite Hm. reflexivity.
  - intros Hm.
    destruct (fwrite_f n) as [f|] eqn:Ef; [|discriminate Hw].
    destruct (data n) as [d|] eqn:Ed; [|discriminate Hd].
    exists f, d. eexists.
    split; [reflexivity|]. split; [reflexivity|].
    split.
    + unfold_node. rewrite Hm. run_node. reflexivity.
    + cbn. unfold handlers_kept. cbn. repeat split; assumption.
Qed.

(** *** Not modified means in memory *)


(** *** State and report step *)

(** C9 (as amended).  On a node handle that has only been given calls
    whose own arguments relate state and step that way ([undefined] exactly
    with step -1 for [enkf_node_fread] and [enkf_node_fwrite], a step other
    than -1 for the two ECLIPSE loads), the state is [undefined] exactly
    when the report step is -1. *)
Theorem state_matches_step_kept (n : enkf_node_type) :
  reachable_by consistent_arguments n -> state_matches_step n.
Proof.
  induction 1 as [block cfg node log A | node o node' log _ IH C E].
  - apply alloc_result in A.
    destruct A as (_ & _ & _ & _ & _ & _ & S & P & _).
    unfold state_matches_step. rewrite S, P. split; reflexivity.
  - eapply exec_keeps_state_step; eassumption.
Qed.

(** *** Construction *)

Lemma alloc_empty_returns block cfg :
  known_impl (enkf_config_node_get_impl_type cfg) = true ->
  exists e,
    enkf_node_alloc_empty cfg block = Ok (tt, e) [] /\
    data e = None /\ __memory_allocated e = false /\
    __modified e = true /\ __report_step e = -1 /\ __state e = undefined.
Proof.
  cbv beta iota zeta delta [enkf_node_alloc_empty].
  destruct (enkf_config_node_get_impl_type cfg) eqn:E; intros K;
    try discriminate K;
    eexists; (split; [cbv; reflexivity|]); cbn; repeat split.
Qed.

Lemma alloc_returns block cfg :
  known_impl (enkf_config_node_get_impl_type cfg) = true ->
  exists n, enkf_node_alloc (Some cfg) block = Ok (tt, n) [call_alloc].
Proof.
  cbv beta iota zeta
      delta [enkf_node_alloc enkf_node_alloc__ enkf_node_alloc_empty].
  destruct (enkf_config_node_get_impl_type cfg) eqn:E; intros K;
    try discriminate K; eexists; cbv; reflexivity.
Qed.

(** C5 (as amended).  For a config of one of the eleven implementation
    types, [enkf_node_alloc] returns a node at (undefined, -1, modified)
    whose object has already been allocated, through the [alloc] function
    of the type and by the one call in the log of the construction, and
    whose memory is marked allocated; it is only the inner
    [enkf_node_alloc_empty] that leaves [data] NULL and memory not
    allocated. *)
Theorem alloc_allocates_object block cfg :
  known_impl (enkf_config_node_get_impl_type cfg) = true ->
  (exists e,
     enkf_node_alloc_empty cfg block = Ok (tt, e) [] /\
     data e = None /\ __memory_allocated e = false /\
     __modified e = true /\ __report_step e = -1 /\ __state e = undefined) /\
  (exists n a,
     enkf_node_alloc (Some cfg) block = Ok (tt, n) [call_alloc] /\
     alloc n = Some a /\
     data n = Some (a (enkf_config_node_get_ref cfg)) /\
     __memory_allocated n = true /\
     __modified n = true /\ __report_step n = -1 /\ __state n = undefined).
Proof.
  intros K. split; [apply alloc_empty_returns; exact K|].
  destruct (alloc_returns block cfg K) as (n & A).
  pose proof (alloc_result block cfg n [call_alloc] A)
    as (W & _ & D & _ & M & Mo & S & P & _).
  destruct W as (Ha & _).
  destruct (alloc n) as [a|] eqn:Ea; [|discriminate Ha].
  exists n, a. split; [exact A|]. split; [exact Ea|].
  split; [exact D|]. split; [exact M|]. split; [exact Mo|].
  split; [exact P | exact S].
Qed.

(** *** enkf_node_copyc *)

(** C4 (as amended).  [enkf_node_copyc] never returns a node.  Without a
    registered [copyc] it aborts at once; with one, it allocates a new node
    for the same config and then aborts as not implemented, which is what
    happens on every node handle.  (Nothing is ever written to the source
    node: the function only reads it.) *)
Theorem copyc_never_returns block (src : enkf_node_type) :
  (copyc src = None ->
   enkf_node_copyc block src = Abort (printed "Har ikke copyc funksjon") []) /\
  (forall new log, enkf_node_copyc block src <> Ok new log) /\
  (reachable src ->
   enkf_node_copyc block src =
   Abort (printed "enkf_node_copyc: not properly implemented ... ")
         [call_alloc]).
Proof.
  split; [intros H; unfold enkf_node_copyc; rewrite H; reflexivity|].
  split.
  - intros new log. unfold enkf_node_copyc.
    destruct (copyc src); [|discriminate].
    destruct (enkf_node_alloc (Some (config src)) block) as [[u m] l|d l|l];
      discriminate.
  - intros R.
    pose proof (reachable_wired src R) as (_ & _ & _ & _ & _ & Hc & _ & K).
    destruct (alloc_returns block (config src) K) as (m & A).
    unfold enkf_node_copyc.
    destruct (copyc src); [|discriminate Hc].
    rewrite A. reflexivity.
Qed.

(** *** Handlers that are not registered *)

(** C3 (as amended).  On every node handle: [enkf_node_ecl_load],
    [enkf_node_serialize] and [enkf_node_deserialize], when the type of
    the node registers no handler for them, abort with the
    handler-not-registered message, nothing having been called;
    [enkf_node_initialize] and [enkf_node_ecl_write] do not: without their
    handler they return with the node as it was and nothing called.
    [fread_f], [fwrite_f] and [free_data] are registered on every node
    handle. *)
Theorem unregistered_handler_calls (n : enkf_node_type) :
  reachable n ->
  (bound (initialize n) = false ->
   forall iens, enkf_node_initialize iens n = Ok (tt, n) []) /\
  (bound (ecl_write n) = false ->
   forall path restart_fortio,
     enkf_node_ecl_write path restart_fortio n = Ok (tt, n) []) /\
  (bound (ecl_load n) = false ->
   forall run_path ecl_sum restart_block report_step,
     enkf_node_ecl_load run_path ecl_sum restart_block report_step n =
     Abort (handler_not_registered "enkf_node_ecl_load" "enkf_node->ecl_load"
              (node_key n)) []) /\
  (bound (serialize n) = false ->
   forall current_serial_offset serial_vector,
     enkf_node_serialize current_serial_offset serial_vector n =
     Abort (handler_not_registered "enkf_node_serialize"
              "enkf_node->serialize" (node_key n)) []) /\
  (bound (deserialize n) = false ->
   forall serial_vector,
     enkf_node_deserialize serial_vector n =
     Abort (handler_not_registered "enkf_node_deserialize"
              "enkf_node->serialize" (node_key n)) []) /\
  bound (fread_f n) = true /\
  bound (fwrite_f n) = true /\
  bound (free_data n) = true.
Proof.
  intros R.
  pose proof (reachable_wired n R) as (_ & _ & Hr & Hw & Hf & _ & Hds & _).
  split; [|split; [|split; [|split; [|split]]]].
  - intros H iens. destruct (initialize n) eqn:E; [discriminate H|].
    unfold_node. rewrite E. reflexivity.
  - intros H path restart_fortio.
    destruct (ecl_write n) eqn:E; [discriminate H|].
    unfold_node. rewrite E. reflexivity.
  - intros H run_path ecl_sum restart_block report_step.
    destruct (ecl_load n) eqn:E; [discriminate H|].
    unfold_node. rewrite E. reflexivity.
  - intros H current_serial_offset serial_vector.
    destruct (serialize n) eqn:E; [discriminate H|].
    unfold_node. rewrite E. reflexivity.
  - intros H serial_vector. rewrite H in Hds.
    destruct (serialize n) eqn:E; [discriminate Hds|].
    unfold_node. rewrite E. reflexivity.
  - split; [exact Hr|]. split; [exact Hw | exact Hf].
Qed.

(** *** enkf_node_free_data *)

Lemma free_data_run (n : enkf_node_type) f d :
  free_data n = Some f -> data n = Some d ->
  enkf_node_free_data n =
  Ok (tt, upd___modified true (upd___state undefined
            (upd___report_step (-1) (upd___memory_allocated false
               (upd_data (Some (f d)) n)))))
     [call_free_data].
Proof.
  intros Hf Hd. unfold_node. rewrite Hf. run_node. reflexivity.
Qed.

Lemma initialize_reallocates (n : enkf_node_type) iens i r d :
  __memory_allocated n = false ->
  initialize n = Some i -> realloc_data n = Some r -> data n = Some d ->
  exists n',
    enkf_node_initialize iens n
      = Ok (tt, n') [call_realloc_data; call_initialize] /\
    data n' = Some (i (r d) iens) /\ __memory_allocated n' = true.
Proof.
  intros Hm Hi Hr Hd. eexists. split.
  - unfold_node. rewrite Hi, Hr, Hm. run_node. reflexivity.
  - cbn. split; reflexivity.
Qed.

Lemma ecl_load_reallocates (n : enkf_node_type)
    run_path ecl_sum restart_block report_step l r d :
  __memory_allocated n = false ->
  ecl_load n = Some l -> realloc_data n = Some r -> data n = Some d ->
  exists n' source,
    enkf_node_ecl_load run_path ecl_sum restart_block report_step n
      = Ok (tt, n') [call_realloc_data; call_ecl_load source] /\
    data n' = Some (l (r d) source ecl_sum restart_block report_step) /\
    __memory_allocated n' = true.
Proof.
  intros Hm Hl Hr Hd.
  destruct (enkf_config_node_get_infile (config n)) as [input_file|] eqn:Ei;
    do 2 eexists; (split; [|split]).
  1, 4: unfold_node; rewrite Hl, Hr, Hm; run_node; reflexivity.
  all: reflexivity.
Qed.

(** [enkf_node_free_data] twice, then a writer, on any node handle.
    Every call of [enkf_node_free_data] goes through the [free_data]
    function of the type and leaves the node at (undefined, -1, modified)
    with memory not allocated, so that a second call in a row changes
    nothing in the node but what [free_data] makes of the object.  After
    one call or two, a writer whose handlers are registered calls
    [realloc_data] exactly once, before its own handler; without
    [realloc_data] the [FUNC_ASSERT] of [enkf_node_ensure_memory] aborts
    [enkf_node_fread]. *)
Theorem free_data_resets_then_reallocates (n : enkf_node_type) :
  reachable n ->
  exists f d n1 n2,
    free_data n = Some f /\ data n = Some d /\
    enkf_node_free_data n = Ok (tt, n1) [call_free_data] /\
    enkf_node_free_data n1 = Ok (tt, n2) [call_free_data] /\
    data n1 = Some (f d) /\
    n2 = upd_data (Some (f (f d))) n1 /\
    (__state n1, __report_step n1, __modified n1, __memory_allocated n1)
      = (undefined, -1, true, false) /\
    (__state n2, __report_step n2, __modified n2, __memory_allocated n2)
      = (undefined, -1, true, false) /\
    forall m, m = n1 \/ m = n2 ->
      (bound (realloc_data n) = true ->
       forall stream report_step state,
       exists m',
         enkf_node_fread stream report_step state m
           = Ok (tt, m') [call_realloc_data; call_fread_f] /\
         __memory_allocated m' = true) /\
      (bound (realloc_data n) = true -> bound (initialize n) = true ->
       forall iens,
       exists m',
         enkf_node_initialize iens m
           = Ok (tt, m') [call_realloc_data; call_initialize] /\
         __memory_allocated m' = true) /\
      (bound (realloc_data n) = true -> bound (ecl_load n) = true ->
       forall run_path ecl_sum restart_block report_step,
       exists m' source,
         enkf_node_ecl_load run_path ecl_sum restart_block report_step m
           = Ok (tt, m') [call_realloc_data; call_ecl_load source] /\
         __memory_allocated m' = true) /\
      (bound (realloc_data n) = false ->
       forall stream report_step state,
         enkf_node_fread stream report_step state m =
         Abort (handler_not_registered "enkf_node_ensure_memory"
                  "enkf_node->realloc_data" (node_key n)) []).
Proof.
  intros R.
  pose proof (reachable_wired n R) as (_ & _ & Hg & _ & Hf & _).
  pose proof (reachable_object n R) as Hd.
  destruct (free_data n) as [f|] eqn:Ef; [|discriminate Hf].
  destruct (data n) as [d|] eqn:Ed; [|discriminate Hd].
  destruct (fread_f n) as [g|] eqn:Eg; [|discriminate Hg].
  pose (n1 := upd___modified true (upd___state undefined
                (upd___report_step (-1) (upd___memory_allocated false
                   (upd_data (Some (f d)) n))))).
  pose (n2 := upd___modified true (upd___state undefined
                (upd___report_step (-1) (upd___memory_allocated false
                   (upd_data (Some (f (f d))) n1))))).
  exists f, d, n1, n2.
  split; [reflexivity|]. split; [reflexivity|].
  split; [apply (free_data_run n f d Ef Ed)|].
  split; [apply free_data_run; [exact Ef | reflexivity]|].
  split; [reflexivity|].
  split; [vm_compute; reflexivity|].
  split; [reflexivity|]. split; [reflexivity|].
  assert (F : forall m, m = n1 \/ m = n2 ->
             __memory_allocated m = false /\ __modified m = true /\
             fread_f m = Some g /\ realloc_data m = realloc_data n /\
             initialize m = initialize n /\ ecl_load m = ecl_load n /\
             node_key m = node_key n /\ exists d', data m = Some d').
  { intros m [-> | ->]; cbn; repeat split;
      try exact Eg; eexists; reflexivity. }
  intros m Hm.
  destruct (F m Hm) as (Mm & Mo & Mg & Mr & Mi & Ml & Mk & d' & Md).
  clear F Hm.
  split; [|split; [|split]].
  - intros Hr stream report_step state.
    destruct (realloc_data n) as [r|] eqn:Er; [|discriminate Hr].
    rewrite (fread_load m stream report_step state g r d'
               (modified_never_agrees m report_step state Mo) Mg Mr Md).
    rewrite Mm. eexists. split; reflexivity.
  - intros Hr Hi iens.
    destruct (realloc_data n) as [r|] eqn:Er; [|discriminate Hr].
    destruct (initialize n) as [i|] eqn:Ei; [|discriminate Hi].
    destruct (initialize_reallocates m iens i r d' Mm Mi Mr Md)
      as (m' & E & _ & M').
    exists m'. split; assumption.
  - intros Hr Hl run_path ecl_sum restart_block report_step.
    destruct (realloc_data n) as [r|] eqn:Er; [|discriminate Hr].
    destruct (ecl_load n) as [l|] eqn:El; [|discriminate Hl].
    destruct (ecl_load_reallocates m run_path ecl_sum restart_block
                report_step l r d' Mm Ml Mr Md)
      as (m' & source & E & _ & M').
    exists m', source. split; assumption.
  - intros Hr stream report_step state.
    destruct (realloc_data n) as [r|] eqn:Er; [discriminate Hr|].
    rewrite <- Mk. apply fread_abort_realloc.
    + apply modified_never_agrees. exact Mo.
    + rewrite Mg. discriminate.
    + exact Mr.
Qed.

(** *** enkf_node_ensemble_fprintf_results *)

Lemma ensemble_fprintf_results_unregistered
    (first : enkf_node_type) rest ens_size report_step path :
  fprintf_results first = None ->
  enkf_node_ensemble_fprintf_results (first :: rest) ens_size report_step path
    = Crash [].
Proof.
  intros H. unfold enkf_node_ensemble_fprintf_results. rewrite H.
  destruct (ens_size <=? List.length (first :: rest))%nat; reflexivity.
Qed.

(** * Further properties of enkf_node.c *)

(** *** Helpers *)

Lemma state_enum_eqb_refl (state : state_enum) :
  state_enum_eqb state state = true.
Proof. destruct state; reflexivity. Qed.

Lemma agrees_when_recorded (n : enkf_node_type) report_step state :
  __report_step n = report_step -> __state n = state ->
  __modified n = false ->
  in_memory_agrees n report_step state = true.
Proof.
  unfold in_memory_agrees. intros -> -> ->.
  rewrite Z.eqb_refl, state_enum_eqb_refl. reflexivity.
Qed.

Lemma fwrite_run (n : enkf_node_type) stream report_step state f d :
  __memory_allocated n = true -> fwrite_f n = Some f -> data n = Some d ->
  enkf_node_fwrite stream report_step state n =
  Ok (f d stream,
      upd___modified false (upd___state state
        (upd___report_step report_step n)))
     [call_fwrite_f].
Proof.
  intros Hm Hf Hd. unfold_node. rewrite Hm. run_node. reflexivity.
Qed.

Lemma ensure_memory_run (n : enkf_node_type) r d :
  realloc_data n = Some r -> data n = Some d ->
  enkf_node_ensure_memory n =
  if __memory_allocated n then Ok (tt, n) []
  else Ok (tt, upd___memory_allocated true (upd_data (Some (r d)) n))
          [call_realloc_data].
Proof.
  intros Hr Hd. unfold_node. rewrite Hr.
  destruct (__memory_allocated n); run_node; reflexivity.
Qed.

Lemma bind_returns {A B : Type} (m : M A) (k : A -> M B) n b n' log :
  bind m k n = Ok (b, n') log ->
  exists a n1 l1 l2,
    m n = Ok (a, n1) l1 /\ k a n1 = Ok (b, n') l2 /\ log = (l1 ++ l2)%list.
Proof.
  unfold bind. destruct (m n) as [[a n1] l1|d l1|l1]; try discriminate.
  destruct (k a n1) as [[b' n2] l2|d l2|l2] eqn:K; try discriminate.
  intros H. inversion H. subst.
  exists a, n1, l1, l2. split; [reflexivity|]. split; [exact K | reflexivity].
Qed.

(** *** Write, then load *)

(** X1.  On every node handle with its memory allocated,
    [enkf_node_fwrite] for a step and state is followed by an
    [enkf_node_fread] for the same step and state that returns at once:
    nothing is called and the node stays as the write left it. *)
Theorem fwrite_then_fread_returns_early (n : enkf_node_type)
    stream report_step state :
  reachable n ->
  __memory_allocated n = true ->
  exists data_written n1,
    enkf_node_fwrite stream report_step state n
      = Ok (data_written, n1) [call_fwrite_f] /\
    forall stream',
      enkf_node_fread stream' report_step state n1 = Ok (tt, n1) [].
Proof.
  intros R Hm.
  pose proof (reachable_wired n R) as (_ & _ & _ & Hw & _).
  pose proof (reachable_object n R) as Hd.
  destruct (fwrite_f n) as [f|] eqn:Ef; [|discriminate Hw].
  destruct (data n) as [d|] eqn:Ed; [|discriminate Hd].
  do 2 eexists. split.
  - apply (fwrite_run n stream report_step state f d Hm Ef Ed).
  - intros stream'. apply fread_skip.
    apply agrees_when_recorded; reflexivity.
Qed.

(** *** Load from ECLIPSE, then load from the ensemble *)

(** X2.  On a node handle whose type registers [ecl_load] and
    [realloc_data], [enkf_node_ecl_load] reallocates only if memory is not
    allocated, hands the loader the full path of the config's input file
    when there is one and the run path otherwise, and leaves the node at
    (forecast, report_step, not modified) with memory allocated; an
    [enkf_node_fread] for that step as forecast then returns at once. *)
Theorem ecl_load_then_fread_returns_early (n : enkf_node_type)
    run_path ecl_sum restart_block report_step :
  reachable n ->
  bound (ecl_load n) = true -> bound (realloc_data n) = true ->
  exists n1,
    enkf_node_ecl_load run_path ecl_sum restart_block report_step n =
    Ok (tt, n1)
       ((if __memory_allocated n then [] else [call_realloc_data])
        ++ [call_ecl_load
              match enkf_config_node_get_infile (config n) with
              | Some input_file => util_alloc_full_path run_path input_file
              | None => run_path
              end])%list /\
    (__state n1, __report_step n1, __modified n1, __memory_allocated n1)
      = (forecast, report_step, false, true) /\
    forall stream,
      enkf_node_fread stream report_step forecast n1 = Ok (tt, n1) [].
Proof.
  intros R Hl Hr.
  pose proof (reachable_object n R) as Hd.
  destruct (ecl_load n) as [l|] eqn:El; [|discriminate Hl].
  destruct (realloc_data n) as [r|] eqn:Er; [|discriminate Hr].
  destruct (data n) as [d|] eqn:Ed; [|discriminate Hd].
  destruct (__memory_allocated n) eqn:Hm;
    destruct (enkf_config_node_get_infile (config n)) eqn:Ei;
    eexists; (split; [unfold_node; rewrite El, Er, Hm; run_node; reflexivity|]);
    (split; [cbn; rewrite ?Hm; reflexivity|]);
    intros stream; apply fread_skip; apply agrees_when_recorded; reflexivity.
Qed.

(** *** Initialize, then load *)


(** *** enkf_node_ensure_memory *)

(** X4.  With [realloc_data] registered, [enkf_node_ensure_memory] calls
    it exactly when memory is not allocated and leaves memory allocated;
    called again on the result it calls nothing and changes nothing. *)
Theorem ensure_memory_twice (n : enkf_node_type) r d :
  realloc_data n = Some r -> data n = Some d ->
  exists n1,
    enkf_node_ensure_memory n =
    Ok (tt, n1) (if __memory_allocated n then [] else [call_realloc_data]) /\
    __memory_allocated n1 = true /\
    data n1 = Some (if __memory_allocated n then d else r d) /\
    enkf_node_ensure_memory n1 = Ok (tt, n1) [].
Proof.
  intros Hr Hd. rewrite (ensure_memory_run n r d Hr Hd).
  destruct (__memory_allocated n) eqn:Hm; eexists;
    (split; [reflexivity|]); (split; [cbn; rewrite ?Hm; reflexivity|]);
    (split; [cbn; rewrite ?Hd; reflexivity|]).
  - rewrite (ensure_memory_run n r d Hr Hd), Hm. reflexivity.
  - erewrite ensure_memory_run; [reflexivity | exact Hr | reflexivity].
Qed.

(** *** enkf_node_alloc_domain_object *)

(** X6.  On every node handle [enkf_node_alloc_domain_object] frees the
    object through [freef], allocates a new one through [alloc] and marks
    memory allocated, without touching state, report step or the modified
    flag: where [enkf_node_fread] returned early before, it returns early
    after, and the new object is not read from the ensemble. *)
Theorem alloc_domain_object_keeps_record (n : enkf_node_type) :
  reachable n ->
  exists a n1,
    alloc n = Some a /\
    enkf_node_alloc_domain_object n = Ok (tt, n1) [call_freef; call_alloc] /\
    n1 = upd___memory_allocated true
           (upd_data (Some (a (enkf_config_node_get_ref (config n)))) n) /\
    forall stream report_step state,
      in_memory_agrees n report_step state = true ->
      enkf_node_fread stream report_step state n1 = Ok (tt, n1) [].
Proof.
  intros R.
  pose proof (reachable_wired n R) as (Ha & Hf & _).
  pose proof (reachable_object n R) as Hd.
  destruct (alloc n) as [a|] eqn:Ea; [|discriminate Ha].
  destruct (freef n) as [f|] eqn:Ef; [|discriminate Hf].
  destruct (data n) as [d|] eqn:Ed; [|discriminate Hd].
  exists a. eexists. split; [reflexivity|].
  split; [unfold_node; run_node; reflexivity|].
  split; [reflexivity|].
  intros stream report_step state A. apply fread_skip. exact A.
Qed.

(** *** enkf_node_serialize *)

(** X7.  On a node handle whose type registers [serialize],
    [enkf_node_serialize] aborts in [enkf_node_assert_memory] when memory
    is not allocated, before [serialize] is called; with memory it calls
    [serialize] once with the node's serial state and the offset, keeps
    the serial state the call left, reports [serial_state_complete] of
    that state, and leaves object, state, report step and modified flag
    alone. *)
Theorem serialize_asserts_memory (n : enkf_node_type)
    current_serial_offset serial_vector :
  reachable n ->
  bound (serialize n) = true ->
  (__memory_allocated n = false ->
   enkf_node_serialize current_serial_offset serial_vector n =
   Abort (fatal "enkf_node_assert_memory"
            ("tried to call:" ++ "enkf_node_serialize"
             ++ " without allocated memory for node:" ++ node_key n
             ++ " - internal ERROR - aborting.")) []) /\
  (__memory_allocated n = true ->
   exists s d,
     serialize n = Some s /\ data n = Some d /\
     enkf_node_serialize current_serial_offset serial_vector n =
     let r := s d (serial_state n) current_serial_offset serial_vector in
     Ok ((fst (fst r), serial_state_complete (snd (fst r)), snd r),
         upd_serial_state (snd (fst r)) n)
        [call_serialize]).
Proof.
  intros R Hs.
  pose proof (reachable_object n R) as Hd.
  destruct (serialize n) as [s|] eqn:Es; [|discriminate Hs].
  destruct (data n) as [d|] eqn:Ed; [|discriminate Hd].
  split; intros Hm.
  - unfold_node. rewrite Es, Hm. reflexivity.
  - exists s, d. split; [reflexivity|]. split; [reflexivity|].
    unfold_node. rewrite Es, Hm. run_node.
    destruct (s d (serial_state n) current_serial_offset serial_vector)
      as [[elements_added ss] vec].
    reflexivity.
Qed.

(** *** After enkf_node_free_data *)

(** X8.  On every node handle, once [enkf_node_free_data] has returned,
    [enkf_node_fwrite] aborts (memory is not allocated) and so does
    [enkf_node_serialize]; [enkf_node_deserialize] has no such test: where
    the type registers [serialize] it goes through [deserialize] on the
    freed object and returns, memory still marked not allocated. *)
Theorem free_data_then_readers (n : enkf_node_type) :
  reachable n ->
  exists n1,
    enkf_node_free_data n = Ok (tt, n1) [call_free_data] /\
    (forall stream report_step state,
       enkf_node_fwrite stream report_step state n1 =
       Abort (fatal "enkf_node_fwrite"
                ("fatal internal error: tried to save node:" ++ node_key n
                 ++ " - memory is not allocated - aborting.")) []) /\
    (bound (serialize n) = true ->
     (forall current_serial_offset serial_vector,
        enkf_node_serialize current_serial_offset serial_vector n1 =
        Abort (fatal "enkf_node_assert_memory"
                 ("tried to call:" ++ "enkf_node_serialize"
                  ++ " without allocated memory for node:" ++ node_key n
                  ++ " - internal ERROR - aborting.")) []) /\
     (forall serial_vector,
        exists n2,
          enkf_node_deserialize serial_vector n1
            = Ok (tt, n2) [call_deserialize] /\
          __memory_allocated n2 = false /\ __modified n2 = true)).
Proof.
  intros R.
  pose proof (reachable_wired n R) as (_ & _ & _ & _ & Hf & _ & Hds & _).
  pose proof (reachable_object n R) as Hd.
  destruct (free_data n) as [f|] eqn:Ef; [|discriminate Hf].
  destruct (data n) as [d|] eqn:Ed; [|discriminate Hd].
  eexists. split; [apply (free_data_run n f d Ef Ed)|].
  split.
  - intros stream report_step state. unfold_node. cbn. reflexivity.
  - intros Hs. rewrite Hs in Hds.
    destruct (serialize n) as [s|] eqn:Es; [|discriminate Hs].
    destruct (deserialize n) as [g|] eqn:Eg; [|discriminate Hds].
    split.
    + intros current_serial_offset serial_vector.
      unfold_node. cbn. rewrite Es. cbn. reflexivity.
    + intros serial_vector. eexists. split.
      * erewrite deserialize_run;
          [reflexivity | cbn; exact Es | cbn; exact Eg | cbn; reflexivity].
      * cbn. split; reflexivity.
Qed.

(** *** enkf_node_has_func *)

(** X9.  [enkf_node_has_func] for [ensemble_fprintf_results_func] on the
    first node decides [enkf_node_ensemble_fprintf_results]: when it is
    true and the ensemble has at least [ens_size] nodes, the report is
    written by one call, to the full path of the first node's key under
    [path], whatever the report step and whatever the other nodes
    register; when it is false the call goes through NULL. *)
Theorem has_func_decides_fprintf_results (first : enkf_node_type)
    rest ens_size report_step path :
  (ens_size <= List.length (first :: rest))%nat ->
  (fst (enkf_node_has_func first ensemble_fprintf_results_func) = true ->
   enkf_node_ensemble_fprintf_results (first :: rest) ens_size report_step
     path
   = Ok tt [call_fprintf_results
              (util_alloc_full_path path (node_key first))]) /\
  (fst (enkf_node_has_func first ensemble_fprintf_results_func) = false ->
   enkf_node_ensemble_fprintf_results (first :: rest) ens_size report_step
     path
   = Crash []).
Proof.
  intros L. apply Nat.leb_le in L.
  unfold enkf_node_ensemble_fprintf_results. rewrite L.
  cbn [enkf_node_has_func fst].
  destruct (fprintf_results first); split; intros H;
    (discriminate H || reflexivity).
Qed.

(** X10.  On every node handle [enkf_node_has_func] answers true for
    [alloc_func], [fread_func], [fwrite_func], [copyc_func], [free_func]
    and [free_data_func], and the same for [serialize_func] as for
    [deserialize_func]; for a function type that is not one of its twelve
    it prints its message and returns false. *)
Theorem has_func_on_node_handle (n : enkf_node_type) :
  reachable n ->
  fst (enkf_node_has_func n alloc_func) = true /\
  fst (enkf_node_has_func n fread_func) = true /\
  fst (enkf_node_has_func n fwrite_func) = true /\
  fst (enkf_node_has_func n copyc_func) = true /\
  fst (enkf_node_has_func n free_func) = true /\
  fst (enkf_node_has_func n free_data_func) = true /\
  fst (enkf_node_has_func n serialize_func)
    = fst (enkf_node_has_func n deserialize_func) /\
  forall code,
    fst (enkf_node_has_func n (other_func code)) = false /\
    snd (enkf_node_has_func n (other_func code)) <> None.
Proof.
  intros R.
  pose proof (reachable_wired n R) as (Ha & Hfr & Hr & Hw & Hfd & Hc & Hds & _).
  cbn [enkf_node_has_func fst snd].
  repeat split; try assumption; try (symmetry; assumption); discriminate.
Qed.

(** *** What no call changes *)

(** X11.  Whatever sequence of exported calls returns on a node, the
    function pointers, the key and the config of the node are afterwards
    what they were before. *)
Theorem calls_keep_handlers (os : list operation) :
  forall (n n' : enkf_node_type) log,
    exec_all os n = Ok (tt, n') log -> handlers_kept n n'.
Proof.
  induction os as [|o rest IH]; intros n n' log H.
  - cbn in H. unfold ret in H. inversion H; subst.
    unfold handlers_kept. repeat split.
  - cbn [exec_all] in H. apply bind_returns in H.
    destruct H as ([] & n1 & l1 & l2 & E1 & E2 & _).
    apply exec_handlers_kept in E1. apply IH in E2.
    unfold handlers_kept in *.
    repeat match goal with H : _ /\ _ |- _ => destruct H end.
    repeat split; etransitivity; eassumption.
Qed.

(** *** enkf_node_ecl_write *)

(** X12.  [enkf_node_ecl_write] never changes the node.  With [ecl_write]
    registered it makes one call, for the full path of the config's output
    file under [path] when the config has one and for [path] itself
    otherwise. *)
Theorem ecl_write_target (n : enkf_node_type) path restart_fortio :
  (forall n' log,
     enkf_node_ecl_write path restart_fortio n = Ok (tt, n') log -> n' = n) /\
  (bound (ecl_write n) = true -> bound (data n) = true ->
   enkf_node_ecl_write path restart_fortio n =
   Ok (tt, n)
      [call_ecl_write
         match enkf_config_node_get_outfile_ref (config n) with
         | Some node_eclfile => util_alloc_full_path path node_eclfile
         | None => path
         end]).
Proof.
  split.
  - intros n' log. unfold_node. split_node; intros H;
      try discriminate H; inversion H; reflexivity.
  - intros Hw Hd.
    destruct (ecl_write n) as [w|] eqn:Ew; [|discriminate Hw].
    destruct (data n) as [d|] eqn:Ed; [|discriminate Hd].
    unfold_node. rewrite Ew.
    destruct (enkf_config_node_get_outfile_ref (config n));
      run_node; destruct (w d _ restart_fortio); reflexivity.
Qed.

(** *** The writers on a new node, type by type *)

(** Reduces a construction that returned to the node it built. *)
Ltac built H :=
  cbv beta iota zeta
      delta [enkf_node_alloc enkf_node_alloc__ enkf_node_alloc_empty] in H;
  cbn [enkf_config_node_get_impl_type enkf_config_node_get_key_ref
       enkf_config_node_get_ref enkf_config_node_get_infile
       enkf_config_node_get_outfile_ref] in H;
  cbv in H; try discriminate H;
  injection H as H; subst.

(** X13.  [enkf_node_initialize] on the node [enkf_node_alloc] returned:
    for GEN_KW, MULTZ, MULTFLT, HAVANA_FAULT, FIELD and GEN_DATA it calls
    [initialize] (no reallocation, construction has allocated) and leaves
    (analyzed, 0, modified); for WELL, SUMMARY and STATIC, which register
    no [initialize], it does nothing; for RELPERM and EQUIL, which register
    [initialize] but no [realloc_data], it aborts in
    [enkf_node_ensure_memory]. *)
Theorem initialize_by_type block key impl_type ref outfile infile n iens :
  enkf_node_alloc
    (Some {| enkf_config_node_get_key_ref := key;
             enkf_config_node_get_impl_type := impl_type;
             enkf_config_node_get_ref := ref;
             enkf_config_node_get_outfile_ref := outfile;
             enkf_config_node_get_infile := infile |}) block
    = Ok (tt, n) [call_alloc] ->
  match impl_type with
  | GEN_KW | MULTZ | MULTFLT | HAVANA_FAULT | FIELD | GEN_DATA =>
      exists n',
        enkf_node_initialize iens n = Ok (tt, n') [call_initialize] /\
        data n' = Some (fn_initialize impl_type (fn_alloc impl_type ref) iens) /\
        (__state n', __report_step n', __modified n') = (analyzed, 0, true)
  | WELL | SUMMARY | STATIC =>
      enkf_node_initialize iens n = Ok (tt, n) []
  | RELPERM | EQUIL =>
      enkf_node_initialize iens n =
      Abort (handler_not_registered "enkf_node_ensure_memory"
               "enkf_node->realloc_data" key) []
  | other_impl _ => False
  end.
Proof.
  intros H. destruct impl_type; built H;
    try (eexists; split; [cbv; reflexivity | split; reflexivity]);
    cbv; reflexivity.
Qed.

(** X14.  [enkf_node_fread] on the node [enkf_node_alloc] returned, for
    any step and state: for every type but RELPERM and EQUIL it reads
    through [fread_f] of the type into the object construction allocated,
    without reallocation, and records step and state; for RELPERM and
    EQUIL it aborts in [enkf_node_ensure_memory]. *)
Theorem fread_by_type block key impl_type ref outfile infile n
    stream report_step state :
  enkf_node_alloc
    (Some {| enkf_config_node_get_key_ref := key;
             enkf_config_node_get_impl_type := impl_type;
             enkf_config_node_get_ref := ref;
             enkf_config_node_get_outfile_ref := outfile;
             enkf_config_node_get_infile := infile |}) block
    = Ok (tt, n) [call_alloc] ->
  match impl_type with
  | RELPERM | EQUIL =>
      enkf_node_fread stream report_step state n =
      Abort (handler_not_registered "enkf_node_ensure_memory"
               "enkf_node->realloc_data" key) []
  | other_impl _ => False
  | _ =>
      exists n',
        enkf_node_fread stream report_step state n
          = Ok (tt, n') [call_fread_f] /\
        data n' = Some (fn_fread_f impl_type (fn_alloc impl_type ref) stream) /\
        (__state n', __report_step n', __modified n')
          = (state, report_step, false)
  end.
Proof.
  intros H.
  assert (A : in_memory_agrees n report_step state = false).
  { apply modified_never_agrees.
    apply alloc_result in H. tauto. }
  destruct impl_type; built H.
  1, 2, 4, 5, 6, 7, 8, 10, 11:
    erewrite fread_load; [ | exact A | reflexivity | reflexivity | reflexivity ];
    eexists; split; [reflexivity | split; reflexivity].
  all: rewrite fread_abort_realloc; [reflexivity | exact A | discriminate | reflexivity].
Qed.

(** X15.  [enkf_node_ecl_load] on the node [enkf_node_alloc] returned:
    for WELL, SUMMARY and FIELD it calls [ecl_load] of the type, on the
    full path of the input file if the config has one and on the run path
    otherwise, and leaves (forecast, report_step, not modified); for every
    other type it aborts, no [ecl_load] being registered. *)
Theorem ecl_load_by_type block key impl_type ref outfile infile n
    run_path ecl_sum restart_block report_step :
  enkf_node_alloc
    (Some {| enkf_config_node_get_key_ref := key;
             enkf_config_node_get_impl_type := impl_type;
             enkf_config_node_get_ref := ref;
             enkf_config_node_get_outfile_ref := outfile;
             enkf_config_node_get_infile := infile |}) block
    = Ok (tt, n) [call_alloc] ->
  match impl_type with
  | WELL | SUMMARY | FIELD =>
      let file := match infile with
                  | Some input_file => util_alloc_full_path run_path input_file
                  | None => run_path
                  end in
      exists n',
        enkf_node_ecl_load run_path ecl_sum restart_block report_step n
          = Ok (tt, n') [call_ecl_load file] /\
        data n' = Some (fn_ecl_load impl_type (fn_alloc impl_type ref) file
                          ecl_sum restart_block report_step) /\
        (__state n', __report_step n', __modified n')
          = (forecast, report_step, false)
  | other_impl _ => False
  | _ =>
      enkf_node_ecl_load run_path ecl_sum restart_block report_step n =
      Abort (handler_not_registered "enkf_node_ecl_load"
               "enkf_node->ecl_load" key) []
  end.
Proof.
  intros H. destruct impl_type; built H;
    try (cbv zeta; destruct infile; eexists;
         (split; [cbv; reflexivity | split; reflexivity]));
    cbv; reflexivity.
Qed.

(** X16.  [enkf_node_ensemble_fprintf_results] on an ensemble whose first
    node is the node [enkf_node_alloc] returned: for GEN_KW, MULTFLT, WELL
    and HAVANA_FAULT the report is written; for the other seven types the
    call goes through NULL. *)
Theorem fprintf_results_by_type block key impl_type ref outfile infile n
    rest ens_size report_step path :
  enkf_node_alloc
    (Some {| enkf_config_node_get_key_ref := key;
             enkf_config_node_get_impl_type := impl_type;
             enkf_config_node_get_ref := ref;
             enkf_config_node_get_outfile_ref := outfile;
             enkf_config_node_get_infile := infile |}) block
    = Ok (tt, n) [call_alloc] ->
  (ens_size <= List.length (n :: rest))%nat ->
  match impl_type with
  | GEN_KW | MULTFLT | WELL | HAVANA_FAULT =>
      enkf_node_ensemble_fprintf_results (n :: rest) ens_size report_step path
      = Ok tt [call_fprintf_results (util_alloc_full_path path key)]
  | other_impl _ => False
  | _ =>
      enkf_node_ensemble_fprintf_results (n :: rest) ens_size report_step path
      = Crash []
  end.
Proof.
  intros H L. apply Nat.leb_le in L.
  unfold enkf_node_ensemble_fprintf_results. rewrite L. clear L.
  destruct impl_type; built H; reflexivity.
Qed.

(** *** enkf_node_ecl_load_static *)

(** X17.  On every node handle [enkf_node_ecl_load_static] hands the
    object to [ecl_static_kw_init] and marks memory allocated without any
    call of [realloc_data], also when memory was not allocated; it leaves
    (forecast, report_step, not modified), so that an [enkf_node_fread]
    for that step as forecast returns at once. *)
Theorem ecl_load_static_marks_memory (n : enkf_node_type) ecl_kw report_step :
  reachable n ->
  exists d n1,
    data n = Some d /\
    enkf_node_ecl_load_static ecl_kw report_step n
      = Ok (tt, n1) [call_ecl_static_kw_init] /\
    data n1 = Some (ecl_static_kw_init d ecl_kw) /\
    (__state n1, __report_step n1, __modified n1, __memory_allocated n1)
      = (forecast, report_step, false, true) /\
    forall stream,
      enkf_node_fread stream report_step forecast n1 = Ok (tt, n1) [].
Proof.
  intros R.
  pose proof (reachable_object n R) as Hd.
  destruct (data n) as [d|] eqn:Ed; [|discriminate Hd].
  exists d. eexists. split; [reflexivity|].
  split; [unfold_node; run_node; reflexivity|].
  split; [reflexivity|]. split; [reflexivity|].
  intros stream. apply fread_skip. apply agrees_when_recorded; reflexivity.
Qed.

(** *** Construction: what it refuses and what it leaves *)

(** X18.  [enkf_node_alloc] returns exactly for a config of one of the
    eleven implementation types, with the one call of [alloc]; for a NULL
    config, and for any other implementation type, it aborts through
    [util_abort] before anything is called. *)
Theorem alloc_returns_or_aborts block :
  enkf_node_alloc None block =
  Abort (fatal "enkf_node_alloc"
           "internal error - must use enkf_node_alloc_static() to allocate static nodes.")
        [] /\
  forall cfg,
    (known_impl (enkf_config_node_get_impl_type cfg) = true ->
     exists n, enkf_node_alloc (Some cfg) block = Ok (tt, n) [call_alloc]) /\
    (known_impl (enkf_config_node_get_impl_type cfg) = false ->
     enkf_node_alloc (Some cfg) block =
     Abort (fatal "enkf_node_alloc_empty"
              "implementation type unknown - all hell is loose - aborting")
           []).
Proof.
  split; [reflexivity|].
  intros cfg. split; [apply alloc_returns|].
  cbv beta iota zeta
      delta [enkf_node_alloc enkf_node_alloc__ enkf_node_alloc_empty].
  destruct (enkf_config_node_get_impl_type cfg); intros K;
    try discriminate K.
  cbv. reflexivity.
Qed.

(** X19.  [enkf_node_alloc_empty] assigns NULL or a function to fifteen of
    the function pointers; [clear], [scale], [iadd], [imul], [isqrt] and
    [iaddsqr] are not among them, and in the node [enkf_node_alloc] returns
    they are what the allocated block held. *)
Theorem alloc_leaves_arithmetic_handlers block cfg n log :
  enkf_node_alloc (Some cfg) block = Ok (tt, n) log ->
  clear n = clear block /\ scale n = scale block /\
  iadd n = iadd block /\ imul n = imul block /\
  isqrt n = isqrt block /\ iaddsqr n = iaddsqr block.
Proof.
  cbv beta iota zeta
      delta [enkf_node_alloc enkf_node_alloc__ enkf_node_alloc_empty].
  destruct (enkf_config_node_get_impl_type cfg) eqn:E; intros H;
    cbv in H; try discriminate H;
    injection H as Hn Hl; subst n log; cbv; repeat split.
Qed.

End Properties.

(** ** Runs on the concrete instance *)

Lemma relperm_node_reachable : reachable relperm_node.
Proof.
  apply (reachable_alloc any_arguments zero_block
           (sample_config "RELPERM" RELPERM) relperm_node [call_alloc]).
  vm_compute. reflexivity.
Qed.

Lemma field_node_reachable : reachable field_node.
Proof.
  apply (reachable_alloc any_arguments zero_block
           (sample_config "PORO" FIELD) field_node [call_alloc]).
  vm_compute. reflexivity.
Qed.

(** C1.  The failing input: a RELPERM node, as [enkf_node_alloc] returns
    it, is asked for step 3 / forecast, which is not what it holds.  The
    claim has the read performed; the call aborts in
    [enkf_node_ensure_memory], nothing having been read, because the
    RELPERM case of the switch registers no [realloc_data] (EQUIL is the
    other such case; the nine other types register it, and for them
    [fread_skips_or_loads] gives what the claim says). *)
Lemma fread_relperm_aborts :
  enkf_node_alloc (Some (sample_config "RELPERM" RELPERM)) zero_block
    = Ok (tt, relperm_node) [call_alloc] /\
  realloc_data relperm_node = None /\
  in_memory_agrees relperm_node 3 forecast = false /\
  enkf_node_fread [1; 2] 3 forecast relperm_node
    = Abort (handler_not_registered "enkf_node_ensure_memory"
               "enkf_node->realloc_data" "RELPERM") [].
Proof.
  split; [vm_compute; reflexivity|].
  split; [vm_compute; reflexivity|].
  split; vm_compute; reflexivity.
Qed.

(** The four cases of [fread_skips_or_loads], each on a node that meets
    its conditions. *)
Lemma fread_skips_or_loads_witness :
  (in_memory_agrees field_written 3 forecast = true /\
   enkf_node_fread [1; 2] 3 forecast field_written = Ok (tt, field_written) []) /\
  (in_memory_agrees field_node 3 forecast = false /\
   exists n',
     enkf_node_fread [1; 2] 3 forecast field_node
       = Ok (tt, n') [call_fread_f] /\
     data n' = Some (Some [1; 2]) /\ __state n' = forecast) /\
  (in_memory_agrees zero_block 3 forecast = false /\
   enkf_node_fread [1; 2] 3 forecast zero_block
     = Abort (handler_not_registered "enkf_node_fread" "enkf_node->fread_f"
                "") []) /\
  (in_memory_agrees relperm_node 3 forecast = false /\
   enkf_node_fread [1; 2] 3 forecast relperm_node
     = Abort (handler_not_registered "enkf_node_ensure_memory"
                "enkf_node->realloc_data" "RELPERM") []).
Proof.
  split; [|split; [|split]].
  - split; [reflexivity|].
    apply (fread_skips_or_loads field_written [1; 2] 3 forecast).
    reflexivity.
  - split; [reflexivity|].
    destruct (fread_skips_or_loads field_node [1; 2] 3 forecast)
      as (_ & L & _).
    destruct (L eq_refl (fn_fread_f FIELD) (fn_realloc_data FIELD)
                (Some [0; 0; 0; 0]) eq_refl eq_refl eq_refl)
      as (n' & E & D & _ & S & _).
    exists n'. split; [exact E|]. split; [exact D | exact S].
  - split; [reflexivity|].
    apply (fread_skips_or_loads zero_block [1; 2] 3 forecast); reflexivity.
  - split; [reflexivity|].
    apply (fread_skips_or_loads relperm_node [1; 2] 3 forecast).
    + reflexivity.
    + discriminate.
    + reflexivity.
Defined.

Lemma field_written_reachable : reachable field_written.
Proof.
  apply (reachable_exec any_arguments
           field_node (op_fwrite (ext := sample_externals) [] 3 forecast)
           field_written [call_fwrite_f] field_node_reachable I).
  vm_compute. reflexivity.
Qed.

Lemma static_node_reachable : reachable static_node.
Proof.
  apply (reachable_alloc any_arguments zero_block
           (sample_config "SWAT" STATIC) static_node [call_alloc]).
  vm_compute. reflexivity.
Qed.

Lemma static_written_reachable : reachable static_written.
Proof.
  apply (reachable_exec any_arguments static_node
           (op_fwrite (ext := sample_externals) [] 3 forecast)
           static_written [call_fwrite_f] static_node_reachable I).
  vm_compute. reflexivity.
Qed.

(** C2 (as stated) fails: STATIC registers no [serialize]; on a STATIC node
    written at step 3 / forecast, which agrees with that pair,
    [enkf_node_deserialize] does not return with the node modified, it
    aborts. *)
Lemma deserialize_static_node_aborts :
  reachable static_written /\
  in_memory_agrees static_written 3 forecast = true /\
  enkf_node_deserialize [7] static_written
    = Abort (handler_not_registered "enkf_node_deserialize"
               "enkf_node->serialize" "SWAT") [].
Proof.
  split; [exact static_written_reachable|].
  split; vm_compute; reflexivity.
Qed.

Lemma deserialize_forces_reload_witness :
  reachable field_written /\
  bound (serialize field_written) = true /\
  bound (realloc_data field_written) = true /\
  in_memory_agrees field_written 3 forecast = true /\
  exists n',
    enkf_node_deserialize [7] field_written = Ok (tt, n') [call_deserialize] /\
    __modified n' = true /\
    exists n'',
      enkf_node_fread [1; 2] 3 forecast n' = Ok (tt, n'') [call_fread_f].
Proof.
  split; [exact field_written_reachable|].
  split; [reflexivity|]. split; [reflexivity|]. split; [reflexivity|].
  destruct (deserialize_forces_reload field_written [7]
              field_written_reachable) as (_ & D).
  destruct (D eq_refl) as (n' & E & M & _ & _ & F).
  exists n'. split; [exact E|]. split; [exact M|].
  destruct (F [1; 2] 3 forecast) as (_ & L).
  destruct (L eq_refl) as (n'' & E2 & _).
  exists n''. exact E2.
Defined.

Lemma fwrite_aborts_or_writes_witness :
  reachable field_node /\
  __memory_allocated field_node = true /\
  exists written n',
    enkf_node_fwrite [] 3 forecast field_node
      = Ok (written, n') [call_fwrite_f] /\
    __state n' = forecast /\ __report_step n' = 3 /\ __modified n' = false.
Proof.
  split; [exact field_node_reachable|]. split; [reflexivity|].
  destruct (fwrite_aborts_or_writes field_node [] 3 forecast
              field_node_reachable) as (_ & W).
  destruct (W eq_refl) as (f & d & n' & _ & _ & E & S & P & M & _).
  eexists. exists n'. split; [exact E|]. repeat split; assumption.
Defined.


(** C9 (as stated) fails: [enkf_node_fread] stores the step and state it
    is given; asked for step -1 as forecast on a new FIELD node it leaves
    the node at (forecast, -1). *)
Lemma fread_at_minus_one_breaks_relation :
  reachable field_node /\
  enkf_node_fread [1; 2] (-1) forecast field_node
    = Ok (tt, field_loaded_at_minus_one) [call_fread_f] /\
  reachable field_loaded_at_minus_one /\
  __state field_loaded_at_minus_one = forecast /\
  __report_step field_loaded_at_minus_one = -1 /\
  ~ state_matches_step field_loaded_at_minus_one.
Proof.
  split; [exact field_node_reachable|].
  split; [vm_compute; reflexivity|].
  split.
  - apply (reachable_exec any_arguments field_node
             (op_fread (ext := sample_externals) [1; 2] (-1) forecast) field_loaded_at_minus_one
             [call_fread_f] field_node_reachable I).
    vm_compute. reflexivity.
  - split; [reflexivity|]. split; [reflexivity|].
    unfold state_matches_step. intros [_ H].
    specialize (H eq_refl). discriminate H.
Qed.

Lemma field_written_consistently :
  reachable_by consistent_arguments field_written.
Proof.
  apply (reachable_exec consistent_arguments
           field_node
           (op_fwrite (ext := sample_externals) [] 3 forecast) field_written [call_fwrite_f]).
  - apply (reachable_alloc consistent_arguments zero_block
             (sample_config "PORO" FIELD) field_node [call_alloc]).
    vm_compute. reflexivity.
  - cbn. split; intros H; discriminate H.
  - vm_compute. reflexivity.
Qed.

Lemma state_matches_step_kept_witness :
  reachable_by consistent_arguments field_written /\
  state_matches_step field_written.
Proof.
  split; [exact field_written_consistently|].
  apply (state_matches_step_kept field_written field_written_consistently).
Defined.

(** C5 (as stated) fails: the FIELD node that [enkf_node_alloc] returns
    has its object and its memory marked allocated, and the allocation is
    in the log of the construction. *)
Lemma new_field_node_has_object :
  enkf_node_alloc (Some (sample_config "PORO" FIELD)) zero_block
    = Ok (tt, field_node) [call_alloc] /\
  __memory_allocated field_node = true /\
  data field_node = Some (Some [0; 0; 0; 0]) /\
  (__state field_node, __report_step field_node, __modified field_node)
    = (undefined, -1, true).
Proof.
  split; [vm_compute; reflexivity|].
  split; [vm_compute; reflexivity|].
  split; vm_compute; reflexivity.
Qed.

Lemma alloc_allocates_object_witness :
  known_impl (enkf_config_node_get_impl_type (sample_config "PORO" FIELD))
    = true /\
  exists n a,
    enkf_node_alloc (Some (sample_config "PORO" FIELD)) zero_block
      = Ok (tt, n) [call_alloc] /\
    alloc n = Some a /\ data n = Some (a 4%nat) /\
    __memory_allocated n = true.
Proof.
  split; [reflexivity|].
  destruct (alloc_allocates_object zero_block (sample_config "PORO" FIELD)
              eq_refl) as (_ & n & a & A & Ea & D & M & _).
  exists n, a. repeat split; assumption.
Defined.

(** C4 (as stated) fails: FIELD registers [copyc], and the copy of a FIELD
    node still does not return. *)
Lemma copyc_field_node_aborts :
  reachable field_node /\
  bound (copyc field_node) = true /\
  enkf_node_copyc zero_block field_node
    = Abort (printed "enkf_node_copyc: not properly implemented ... ")
            [call_alloc].
Proof.
  split; [exact field_node_reachable|].
  split; vm_compute; reflexivity.
Qed.

Lemma copyc_never_returns_witness :
  (copyc zero_block = None /\
   enkf_node_copyc zero_block zero_block
     = Abort (printed "Har ikke copyc funksjon") []) /\
  (reachable field_node /\
   enkf_node_copyc zero_block field_node
     = Abort (printed "enkf_node_copyc: not properly implemented ... ")
             [call_alloc]).
Proof.
  split.
  - split; [reflexivity|].
    apply (copyc_never_returns zero_block zero_block). reflexivity.
  - split; [exact field_node_reachable|].
    apply (copyc_never_returns zero_block field_node).
    exact field_node_reachable.
Defined.

Lemma well_node_reachable : reachable well_node.
Proof.
  apply (reachable_alloc any_arguments zero_block
           (sample_config "WELL-1" WELL) well_node [call_alloc]).
  vm_compute. reflexivity.
Qed.

(** C3 (as stated) fails: WELL registers neither [initialize] nor
    [ecl_write]; both calls on a WELL node return, with the node as it was
    and nothing called. *)
Lemma initialize_well_node_ignored :
  reachable well_node /\
  initialize well_node = None /\
  enkf_node_initialize 0 well_node = Ok (tt, well_node) [] /\
  ecl_write well_node = None /\
  enkf_node_ecl_write "run" tt well_node = Ok (tt, well_node) [].
Proof.
  split; [exact well_node_reachable|].
  split; [vm_compute; reflexivity|].
  split; [vm_compute; reflexivity|].
  split; vm_compute; reflexivity.
Qed.

Lemma unregistered_handler_calls_witness :
  reachable static_node /\
  (bound (initialize static_node) = false /\
   enkf_node_initialize 0 static_node = Ok (tt, static_node) []) /\
  (bound (ecl_load static_node) = false /\
   enkf_node_ecl_load "run" tt [] 3 static_node
     = Abort (handler_not_registered "enkf_node_ecl_load"
                "enkf_node->ecl_load" "SWAT") []) /\
  (bound (serialize static_node) = false /\
   enkf_node_serialize 0 [] static_node
     = Abort (handler_not_registered "enkf_node_serialize"
                "enkf_node->serialize" "SWAT") []) /\
  (bound (deserialize static_node) = false /\
   enkf_node_deserialize [7] static_node
     = Abort (handler_not_registered "enkf_node_deserialize"
                "enkf_node->serialize" "SWAT") []) /\
  reachable well_node /\
  (bound (ecl_write well_node) = false /\
   enkf_node_ecl_write "run" tt well_node = Ok (tt, well_node) []).
Proof.
  destruct (unregistered_handler_calls static_node static_node_reachable)
    as (S1 & _ & S3 & S4 & S5 & _).
  destruct (unregistered_handler_calls well_node well_node_reachable)
    as (_ & W2 & _).
  split; [exact static_node_reachable|].
  split; [split; [reflexivity | exact (S1 eq_refl 0)]|].
  split; [split; [reflexivity | exact (S3 eq_refl "run" tt [] 3)]|].
  split; [split; [reflexivity | exact (S4 eq_refl 0 [])]|].
  split; [split; [reflexivity | exact (S5 eq_refl [7])]|].
  split; [exact well_node_reachable|].
  split; [reflexivity | exact (W2 eq_refl "run" tt)].
Defined.

(** C7.  The failing input: on a RELPERM node, as [enkf_node_alloc]
    returns it, [enkf_node_free_data] is followed by an [enkf_node_fread].
    The claim has the writer reallocate once and go on; the call aborts in
    [enkf_node_ensure_memory], and the log of the two calls holds the
    [free_data] call alone: the RELPERM case of the switch registers no
    [realloc_data] (for the types that do,
    [free_data_resets_then_reallocates] gives what the claim says). *)
Lemma fread_after_free_data_relperm_aborts :
  reachable relperm_node /\
  exec_all [op_free_data; op_fread [1; 2] 3 forecast] relperm_node
    = Abort (handler_not_registered "enkf_node_ensure_memory"
               "enkf_node->realloc_data" "RELPERM") [call_free_data].
Proof.
  split; [exact relperm_node_reachable|].
  vm_compute. reflexivity.
Qed.

Lemma free_data_resets_then_reallocates_witness :
  reachable field_node /\
  exists n1 n2,
    enkf_node_free_data field_node = Ok (tt, n1) [call_free_data] /\
    enkf_node_free_data n1 = Ok (tt, n2) [call_free_data] /\
    __memory_allocated n2 = false /\
    exists m',
      enkf_node_fread [1; 2] 3 forecast n2
        = Ok (tt, m') [call_realloc_data; call_fread_f] /\
      __memory_allocated m' = true.
Proof.
  split; [exact field_node_reachable|].
  destruct (free_data_resets_then_reallocates field_node
              field_node_reachable)
    as (f & d & n1 & n2 & _ & _ & E1 & E2 & _ & _ & _ & T & W).
  exists n1, n2. split; [exact E1|]. split; [exact E2|].
  split; [congruence|].
  destruct (W n2 (or_intror eq_refl)) as (Wf & _).
  exact (Wf eq_refl [1; 2] 3 forecast).
Defined.

(** C8: MULTZ registers no [fprintf_results]; the report over an ensemble
    of one MULTZ node calls through the NULL pointer, where the claim has a
    fatal contract violation with its diagnostic. *)
Lemma fprintf_results_multz_crashes :
  enkf_node_alloc (Some (sample_config "MULTZ" MULTZ)) zero_block
    = Ok (tt, multz_node) [call_alloc] /\
  fprintf_results multz_node = None /\
  enkf_node_ensemble_fprintf_results [multz_node] 1 0 "results" = Crash [].
Proof.
  split; [vm_compute; reflexivity|].
  split; vm_compute; reflexivity.
Qed.

(** ** Runs for the further properties *)

Lemma fwrite_then_fread_returns_early_witness :
  reachable field_node /\
  __memory_allocated field_node = true /\
  exists data_written n1,
    enkf_node_fwrite [] 3 forecast field_node
      = Ok (data_written, n1) [call_fwrite_f] /\
    enkf_node_fread [1; 2] 3 forecast n1 = Ok (tt, n1) [].
Proof.
  split; [exact field_node_reachable|]. split; [reflexivity|].
  destruct (fwrite_then_fread_returns_early field_node [] 3 forecast
              field_node_reachable eq_refl) as (w & n1 & E & F).
  exists w, n1. split; [exact E | exact (F [1; 2])].
Defined.

Lemma ecl_load_then_fread_returns_early_witness :
  reachable field_node /\
  bound (ecl_load field_node) = true /\
  bound (realloc_data field_node) = true /\
  exists n1,
    enkf_node_ecl_load "run" tt [5; 6] 7 field_node
      = Ok (tt, n1) [call_ecl_load "run"] /\
    enkf_node_fread [1; 2] 7 forecast n1 = Ok (tt, n1) [].
Proof.
  split; [exact field_node_reachable|].
  split; [reflexivity|]. split; [reflexivity|].
  destruct (ecl_load_then_fread_returns_early field_node "run" tt [5; 6] 7
              field_node_reachable eq_refl eq_refl) as (n1 & E & _ & F).
  exists n1. split; [exact E | exact (F [1; 2])].
Defined.


Lemma ensure_memory_twice_witness :
  realloc_data field_freed = Some (fn_realloc_data FIELD) /\
  data field_freed = Some None /\
  __memory_allocated field_freed = false /\
  exists n1,
    enkf_node_ensure_memory field_freed = Ok (tt, n1) [call_realloc_data] /\
    data n1 = Some (Some [0; 0; 0; 0]) /\
    enkf_node_ensure_memory n1 = Ok (tt, n1) [].
Proof.
  split; [reflexivity|]. split; [reflexivity|]. split; [reflexivity|].
  destruct (ensure_memory_twice field_freed (fn_realloc_data FIELD) None
              eq_refl eq_refl) as (n1 & E & _ & D & T).
  exists n1. split; [exact E|]. split; [exact D | exact T].
Defined.

Lemma alloc_domain_object_keeps_record_witness :
  reachable field_written /\
  in_memory_agrees field_written 3 forecast = true /\
  exists n1,
    enkf_node_alloc_domain_object field_written
      = Ok (tt, n1) [call_freef; call_alloc] /\
    enkf_node_fread [1; 2] 3 forecast n1 = Ok (tt, n1) [].
Proof.
  split; [exact field_written_reachable|]. split; [reflexivity|].
  destruct (alloc_domain_object_keeps_record field_written
              field_written_reachable) as (a & n1 & _ & E & _ & F).
  exists n1. split; [exact E | exact (F [1; 2] 3 forecast eq_refl)].
Defined.

Lemma serialize_asserts_memory_witness :
  reachable field_node /\
  bound (serialize field_node) = true /\
  __memory_allocated field_node = true /\
  exists s d,
    serialize field_node = Some s /\ data field_node = Some d /\
    enkf_node_serialize 0 [] field_node =
    let r := s d (serial_state field_node) 0 [] in
    Ok ((fst (fst r), serial_state_complete (snd (fst r)), snd r),
        upd_serial_state (snd (fst r)) field_node)
       [call_serialize].
Proof.
  split; [exact field_node_reachable|].
  split; [reflexivity|]. split; [reflexivity|].
  apply (serialize_asserts_memory field_node 0 []
           field_node_reachable eq_refl).
  reflexivity.
Defined.

Lemma free_data_then_readers_witness :
  reachable field_node /\
  exists n1,
    enkf_node_free_data field_node = Ok (tt, n1) [call_free_data] /\
    enkf_node_fwrite [] 3 forecast n1 =
    Abort (fatal "enkf_node_fwrite"
             ("fatal internal error: tried to save node:"
              ++ node_key field_node
              ++ " - memory is not allocated - aborting.")) [] /\
    exists n2,
      enkf_node_deserialize [7] n1 = Ok (tt, n2) [call_deserialize] /\
      __memory_allocated n2 = false.
Proof.
  split; [exact field_node_reachable|].
  destruct (free_data_then_readers field_node field_node_reachable)
    as (n1 & E & W & S).
  exists n1. split; [exact E|]. split; [exact (W [] 3 forecast)|].
  destruct (S eq_refl) as (_ & D).
  destruct (D [7]) as (n2 & E2 & M & _).
  exists n2. split; [exact E2 | exact M].
Defined.

Lemma has_func_decides_fprintf_results_witness :
  (2 <= List.length [multflt_node; multz_node])%nat /\
  fst (enkf_node_has_func multflt_node ensemble_fprintf_results_func)
    = true /\
  enkf_node_ensemble_fprintf_results [multflt_node; multz_node] 2 0 "results"
    = Ok tt [call_fprintf_results
               (util_alloc_full_path "results" (node_key multflt_node))] /\
  fst (enkf_node_has_func multz_node ensemble_fprintf_results_func)
    = false /\
  enkf_node_ensemble_fprintf_results [multz_node; multflt_node] 2 0 "results"
    = Crash [].
Proof.
  split; [apply le_n|]. split; [reflexivity|].
  split.
  - apply (has_func_decides_fprintf_results multflt_node [multz_node] 2 0
             "results" (le_n 2)).
    reflexivity.
  - split; [reflexivity|].
    apply (has_func_decides_fprintf_results multz_node [multflt_node] 2 0
             "results" (le_n 2)).
    reflexivity.
Defined.

Lemma has_func_on_node_handle_witness :
  reachable static_node /\
  fst (enkf_node_has_func static_node fread_func) = true /\
  fst (enkf_node_has_func static_node serialize_func)
    = fst (enkf_node_has_func static_node deserialize_func).
Proof.
  split; [exact static_node_reachable|].
  destruct (has_func_on_node_handle static_node static_node_reachable)
    as (_ & R & _ & _ & _ & _ & S & _).
  split; [exact R | exact S].
Defined.

Lemma calls_keep_handlers_witness :
  exec_all [op_fwrite (ext := sample_externals) [] 3 forecast;
            op_free_data; op_initialize 7] field_node
    = Ok (tt, field_reinitialized)
         [call_fwrite_f; call_free_data; call_realloc_data; call_initialize] /\
  handlers_kept field_node field_reinitialized.
Proof.
  assert (E : exec_all [op_fwrite (ext := sample_externals) [] 3 forecast;
                        op_free_data; op_initialize 7] field_node
              = Ok (tt, field_reinitialized)
                   [call_fwrite_f; call_free_data; call_realloc_data;
                    call_initialize])
    by (vm_compute; reflexivity).
  split; [exact E|].
  exact (calls_keep_handlers _ field_node field_reinitialized _ E).
Defined.

Lemma ecl_write_target_witness :
  bound (ecl_write field_node) = true /\
  bound (data field_node) = true /\
  enkf_node_ecl_write "run" tt field_node
    = Ok (tt, field_node) [call_ecl_write "run"].
Proof.
  split; [reflexivity|]. split; [reflexivity|].
  apply (ecl_write_target field_node "run" tt); reflexivity.
Defined.

Lemma initialize_by_type_witness :
  enkf_node_alloc (Some (sample_config "PORO" FIELD)) zero_block
    = Ok (tt, field_node) [call_alloc] /\
  (exists n',
     enkf_node_initialize 7 field_node = Ok (tt, n') [call_initialize] /\
     data n' = Some (Some [7; 7; 7; 7])) /\
  enkf_node_alloc (Some (sample_config "RELPERM" RELPERM)) zero_block
    = Ok (tt, relperm_node) [call_alloc] /\
  enkf_node_initialize 7 relperm_node =
  Abort (handler_not_registered "enkf_node_ensure_memory"
           "enkf_node->realloc_data" "RELPERM") [].
Proof.
  assert (F : enkf_node_alloc (Some (sample_config "PORO" FIELD)) zero_block
              = Ok (tt, field_node) [call_alloc])
    by (vm_compute; reflexivity).
  assert (R : enkf_node_alloc (Some (sample_config "RELPERM" RELPERM))
                zero_block = Ok (tt, relperm_node) [call_alloc])
    by (vm_compute; reflexivity).
  split; [exact F|]. split.
  - destruct (initialize_by_type zero_block "PORO" FIELD 4%nat None None
                field_node 7 F) as (n' & E & D & _).
    exists n'. split; [exact E | exact D].
  - split; [exact R|].
    exact (initialize_by_type zero_block "RELPERM" RELPERM 4%nat None None
             relperm_node 7 R).
Defined.

Lemma fread_by_type_witness :
  enkf_node_alloc (Some (sample_config "WELL-1" WELL)) zero_block
    = Ok (tt, well_node) [call_alloc] /\
  exists n',
    enkf_node_fread [1; 2] 3 forecast well_node
      = Ok (tt, n') [call_fread_f] /\
    data n' = Some (Some [1; 2]).
Proof.
  assert (W : enkf_node_alloc (Some (sample_config "WELL-1" WELL)) zero_block
              = Ok (tt, well_node) [call_alloc])
    by (vm_compute; reflexivity).
  split; [exact W|].
  destruct (fread_by_type zero_block "WELL-1" WELL 4%nat None None
              well_node [1; 2] 3 forecast W) as (n' & E & D & _).
  exists n'. split; [exact E | exact D].
Defined.

Lemma ecl_load_by_type_witness :
  enkf_node_alloc (Some (sample_config "WELL-1" WELL)) zero_block
    = Ok (tt, well_node) [call_alloc] /\
  (exists n',
     enkf_node_ecl_load "run" tt [5; 6] 7 well_node
       = Ok (tt, n') [call_ecl_load "run"] /\
     data n' = Some (Some [5; 6])) /\
  enkf_node_alloc (Some (sample_config "MULTZ" MULTZ)) zero_block
    = Ok (tt, multz_node) [call_alloc] /\
  enkf_node_ecl_load "run" tt [5; 6] 7 multz_node =
  Abort (handler_not_registered "enkf_node_ecl_load" "enkf_node->ecl_load"
           "MULTZ") [].
Proof.
  assert (W : enkf_node_alloc (Some (sample_config "WELL-1" WELL)) zero_block
              = Ok (tt, well_node) [call_alloc])
    by (vm_compute; reflexivity).
  assert (Z : enkf_node_alloc (Some (sample_config "MULTZ" MULTZ)) zero_block
              = Ok (tt, multz_node) [call_alloc])
    by (vm_compute; reflexivity).
  split; [exact W|]. split.
  - destruct (ecl_load_by_type zero_block "WELL-1" WELL 4%nat None None
                well_node "run" tt [5; 6] 7 W) as (n' & E & D & _).
    exists n'. split; [exact E | exact D].
  - split; [exact Z|].
    exact (ecl_load_by_type zero_block "MULTZ" MULTZ 4%nat None None
             multz_node "run" tt [5; 6] 7 Z).
Defined.

Lemma fprintf_results_by_type_witness :
  enkf_node_alloc (Some (sample_config "MULTFLT" MULTFLT)) zero_block
    = Ok (tt, multflt_node) [call_alloc] /\
  (1 <= List.length [multflt_node])%nat /\
  enkf_node_ensemble_fprintf_results [multflt_node] 1 0 "results"
    = Ok tt [call_fprintf_results "results/MULTFLT"].
Proof.
  assert (F : enkf_node_alloc (Some (sample_config "MULTFLT" MULTFLT))
                zero_block = Ok (tt, multflt_node) [call_alloc])
    by (vm_compute; reflexivity).
  split; [exact F|]. split; [apply le_n|].
  exact (fprintf_results_by_type zero_block "MULTFLT" MULTFLT 4%nat None None
           multflt_node [] 1 0 "results" F (le_n 1)).
Defined.

Lemma ecl_load_static_marks_memory_witness :
  reachable field_node /\
  exists n1,
    enkf_node_ecl_load_static [8; 9] 5 field_node
      = Ok (tt, n1) [call_ecl_static_kw_init] /\
    data n1 = Some (Some [8; 9]) /\
    enkf_node_fread [1; 2] 5 forecast n1 = Ok (tt, n1) [].
Proof.
  split; [exact field_node_reachable|].
  destruct (ecl_load_static_marks_memory field_node [8; 9] 5
              field_node_reachable) as (d & n1 & _ & E & D & _ & F).
  exists n1. split; [exact E|]. split; [|exact (F [1; 2])].
  rewrite D. reflexivity.
Defined.

Lemma alloc_returns_or_aborts_witness :
  known_impl (enkf_config_node_get_impl_type (sample_config "PORO" FIELD))
    = true /\
  (exists n,
     enkf_node_alloc (Some (sample_config "PORO" FIELD)) zero_block
       = Ok (tt, n) [call_alloc]) /\
  known_impl
    (enkf_config_node_get_impl_type (sample_config "PGBOX" (other_impl 12)))
    = false /\
  enkf_node_alloc (Some (sample_config "PGBOX" (other_impl 12))) zero_block =
  Abort (fatal "enkf_node_alloc_empty"
           "implementation type unknown - all hell is loose - aborting") [].
Proof.
  destruct (alloc_returns_or_aborts zero_block) as (_ & A).
  split; [reflexivity|].
  split; [exact (proj1 (A (sample_config "PORO" FIELD)) eq_refl)|].
  split; [reflexivity|].
  exact (proj2 (A (sample_config "PGBOX" (other_impl 12))) eq_refl).
Defined.

Lemma alloc_leaves_arithmetic_handlers_witness :
  enkf_node_alloc (Some (sample_config "PORO" FIELD)) zero_block
    = Ok (tt, field_node) [call_alloc] /\
  scale field_node = None /\ iadd field_node = None.
Proof.
  assert (F : enkf_node_alloc (Some (sample_config "PORO" FIELD)) zero_block
              = Ok (tt, field_node) [call_alloc])
    by (vm_compute; reflexivity).
  split; [exact F|].
  destruct (alloc_leaves_arithmetic_handlers zero_block
              (sample_config "PORO" FIELD) field_node [call_alloc] F)
    as (_ & S & A & _).
  split; [exact S | exact A].
Defined.
